(** * LightRAG wrapper: the JSON-RPC bridge of [python/lightrag_wrapper.py]

    A shallow embedding of class [LightRAGWrapper]: lazy initialisation of
    the engine handle, the eight handlers, the dispatcher [handle_request]
    and the transport loop [run].

    Conventions.
    - A Python [str] is a [string]; one [ascii] stands for one code point
      (code points below 256).
    - Every object that travels through a request or a response is a
      [value]: the Python image of a JSON document.
    - The engine, the file system, the import machinery and the [json]
      module are external collaborators.  They are the fields of an
      [Env] record over an abstract world [W]; every theorem holds for
      every environment.
    - A coroutine is a function from the wrapper state to an outcome
      (returned value or raised exception) and a new state.  Only
      subclasses of [Exception] are modelled: interpreter-level signals
      (KeyboardInterrupt, SystemExit, asyncio cancellation) are not.
    - Calls to [logger] and to the collaborators are appended to a trace,
      in program order. *)

From Stdlib Require Import String Ascii List ZArith Lia Bool.
From Stdlib Require Import DecimalString.
Import ListNotations.
Local Open Scope string_scope.
Local Open Scope Z_scope.

Set Implicit Arguments.

(* ================================================================== *)
(** ** Python values *)
(* ================================================================== *)

(** The objects [json.loads] can produce.  A float carries its Python
    [repr]; a dict is an association list in insertion order, looked up
    first match. *)
Unset Elimination Schemes.
Inductive value : Type :=
| VNone
| VBool (b : bool)
| VInt (z : Z)
| VFloat (repr : string)
| VStr (s : string)
| VList (items : list value)
| VDict (kvs : list (string * value)).
Set Elimination Schemes.

Definition dict := list (string * value).

Fixpoint dict_get (k : string) (d : dict) : option value :=
  match d with
  | [] => None
  | (k', v) :: d' => if String.eqb k' k then Some v else dict_get k d'
  end.

Definition dict_keys (d : dict) : list string := map fst d.

Definition has_key (k : string) (d : dict) : bool :=
  match dict_get k d with Some _ => true | None => false end.

(** [d.get(k, default)] *)
Definition get_default (k : string) (default : value) (d : dict) : value :=
  match dict_get k d with Some v => v | None => default end.

(** [v == "literal"] *)
Definition eq_str (v : value) (s : string) : bool :=
  match v with VStr t => String.eqb t s | _ => false end.

(** Truth value of an object, as tested by [if x:] and [x or y]. *)
Definition truthy (v : value) : bool :=
  match v with
  | VNone => false
  | VBool b => b
  | VInt z => negb (z =? 0)
  | VFloat r => negb (String.eqb r "0.0" || String.eqb r "-0.0")
  | VStr s => negb (String.eqb s "")
  | VList l => match l with [] => false | _ => true end
  | VDict d => match d with [] => false | _ => true end
  end.

(** Truth value of an [Optional[str]] attribute. *)
Definition truthy_opt (o : option string) : bool :=
  match o with Some s => negb (String.eqb s "") | None => false end.

(** [o or default] for an [Optional[str]] attribute. *)
Definition or_default (o : option string) (default : string) : string :=
  match o with
  | Some s => if String.eqb s "" then default else s
  | None => default
  end.

Definition type_name (v : value) : string :=
  match v with
  | VNone => "NoneType"
  | VBool _ => "bool"
  | VInt _ => "int"
  | VFloat _ => "float"
  | VStr _ => "str"
  | VList _ => "list"
  | VDict _ => "dict"
  end.

(** Decimal text of an integer, as [str(n)] prints it. *)
Definition str_of_Z (z : Z) : string := NilZero.string_of_int (Z.to_int z).

Definition str_of_nat (n : nat) : string := str_of_Z (Z.of_nat n).

(** [sub in s] *)
Fixpoint contains (sub s : string) : bool :=
  if String.prefix sub s then true
  else match s with
       | EmptyString => false
       | String _ s' => contains sub s'
       end.

(** [s[:n]] *)
Fixpoint take (n : nat) (s : string) : string :=
  match n, s with
  | O, _ => ""
  | S _, EmptyString => ""
  | S n', String c s' => String c (take n' s')
  end.

(** Code points Python's [str.isspace] accepts, below 256. *)
Definition is_space (c : ascii) : bool :=
  let n := nat_of_ascii c in
  ((9 <=? n) && (n <=? 13) || (28 <=? n) && (n <=? 32)
   || (n =? 133) || (n =? 160))%nat.

Fixpoint lstrip (s : string) : string :=
  match s with
  | EmptyString => ""
  | String c s' => if is_space c then lstrip s' else s
  end.

Fixpoint rstrip (s : string) : string :=
  match s with
  | EmptyString => ""
  | String c s' =>
      match rstrip s' with
      | EmptyString => if is_space c then "" else String c ""
      | r => String c r
      end
  end.

(** [s.strip()] *)
Definition strip (s : string) : string := rstrip (lstrip s).

(* ================================================================== *)
(** ** Exceptions and outcomes *)
(* ================================================================== *)

(** An instance of a subclass of [Exception]: [type(e).__name__],
    [str(e)], and whether [isinstance(e, ImportError)]. *)
Record exn : Type := Exn {
  exn_type : string;
  exn_msg : string;
  exn_is_import_error : bool
}.

Definition TypeError (msg : string) : exn := Exn "TypeError" msg false.
Definition ValueError (msg : string) : exn := Exn "ValueError" msg false.
Definition AttributeError (msg : string) : exn := Exn "AttributeError" msg false.

Inductive outcome (A : Type) : Type :=
| Returns (a : A)
| Raises (e : exn).
Arguments Raises {A} e.

(* ================================================================== *)
(** ** Collaborators *)
(* ================================================================== *)

(** Keyword arguments of the [LightRAG(...)] constructor call.  The two
    function arguments ([openai_complete_if_cache], [openai_embed]) are
    constants of the call and are left out. *)
Record LightRAGArgs : Type := {
  arg_working_dir : string;
  arg_llm_model_name : string;
  arg_llm_model_kwargs : dict;
  arg_embedding_dim : Z;
  arg_embedding_batch_num : Z;
  arg_embedding_func_max_async : Z;
  arg_storage_kwargs : dict
}.

(** Why a call [f( **params )] cannot bind its keyword arguments. *)
Inductive kw_error : Type :=
| NotAMapping (params : value)
| MultipleValues (k : string)
| UnexpectedKeyword (k : string)
| MissingArgument (k : string).

Inductive level : Type := DEBUG | INFO | WARNING | ERROR.

(** What [json.loads(line)] does: it returns the decoded object, raises
    [json.JSONDecodeError] (with text [msg]), or raises an exception of
    another class ([RecursionError] on deep nesting, [ValueError] on an
    integer literal over the digit limit). *)
Inductive loaded : Type :=
| Loaded (v : value)
| JSONDecodeError (msg : string)
| LoadFailure (e : exn).

Section Wrapper.

(** [W]: the state of everything outside the wrapper.  [H]: the engine
    handle, an instance of [LightRAG]. *)
Variables W H : Type.

(** What the wrapper consumes from its collaborators.  Each operation
    may change the world and may raise.
    - [json_loads]: [json.loads], see [loaded].
    - [path_str p]: [str(Path(p))], the text of a path as [pathlib]
      normalises it.
    - [repr_container]: [str()] of a list or a dict.
    - [kw_error_msg f err]: text of the [TypeError] the interpreter
      raises when the call of [f] cannot bind its keywords.
    - [path_exists p]: [Path(p).exists()].
    - [read_file p]: [open(Path(p), 'r', encoding='utf-8')] and [f.read()].
    - [aquery h q kw]: [str(await h.aquery(q, param=QueryParam( **kw )))].
    - [dir_size d]: the sum of [st_size] over the regular files under [d].
    - [mkdir d]: [Path(d).mkdir(parents=True, exist_ok=True)]. *)
Record Env : Type := {
  json_loads : string -> loaded;
  path_str : string -> string;
  json_dumps : value -> string;
  repr_container : value -> string;
  kw_error_msg : string -> kw_error -> string;
  import_module : string -> W -> outcome unit * W;
  LightRAG : LightRAGArgs -> W -> outcome H * W;
  ainsert : H -> value -> W -> outcome unit * W;
  aquery : H -> value -> dict -> W -> outcome string * W;
  path_exists : value -> W -> outcome bool * W;
  read_file : value -> W -> outcome string * W;
  dir_size : string -> W -> outcome Z * W;
  mkdir : string -> W -> outcome unit * W
}.

Inductive call : Type :=
| CImport (module : string)
| CLightRAG (args : LightRAGArgs)
| CAinsert (h : H) (content : value)
| CAquery (h : H) (query : value) (param : dict)
| CExists (path : value)
| CRead (path : value)
| CDirSize (dir : string)
| CMkdir (dir : string).

(** One entry of the trace: a [logger] call, or a collaborator call with
    whether it returned ([true]) or raised ([false]). *)
Inductive event : Type :=
| ELog (lvl : level) (msg : string)
| ECall (c : call) (ok : bool).

(** The attributes [__init__] sets. *)
Record LightRAGWrapper : Type := {
  working_dir : string;
  openai_api_key : string;
  openai_base_url : string;
  openai_model : string;
  openai_embedding_model : string;
  milvus_address : option string;
  neo4j_uri : option string;
  neo4j_username : string;
  neo4j_password : option string;
  rag : option H;
  _initialized : bool
}.

Record State : Type := {
  self : LightRAGWrapper;
  world : W;
  trace : list event;
  stdout : list string
}.

Definition set_self (f : LightRAGWrapper -> LightRAGWrapper) (s : State) : State :=
  {| self := f (self s); world := world s; trace := trace s; stdout := stdout s |}.

Definition add_event (e : event) (s : State) : State :=
  {| self := self s; world := world s; trace := trace s ++ [e];
     stdout := stdout s |}.

Definition set_world (w : W) (s : State) : State :=
  {| self := self s; world := w; trace := trace s; stdout := stdout s |}.

(** [sys.stdout.write(text)] *)
Definition write (text : string) (s : State) : State :=
  {| self := self s; world := world s; trace := trace s;
     stdout := stdout s ++ [text] |}.

(** *** The coroutine monad *)

Definition M (A : Type) : Type := State -> outcome A * State.

Definition ret {A} (a : A) : M A := fun s => (Returns a, s).

Definition raise {A} (e : exn) : M A := fun s => (Raises e, s).

Definition bind {A B} (m : M A) (k : A -> M B) : M B :=
  fun s =>
    match m s with
    | (Returns a, s') => k a s'
    | (Raises e, s') => (Raises e, s')
    end.

(** [try: body / except Exception as e: handler(e)] *)
Definition try_except {A} (body : M A) (handler : exn -> M A) : M A :=
  fun s =>
    match body s with
    | (Returns a, s') => (Returns a, s')
    | (Raises e, s') => handler e s'
    end.

(** [try: body / except ImportError: handler] *)
Definition try_except_ImportError {A} (body : M A) (handler : M A) : M A :=
  fun s =>
    match body s with
    | (Returns a, s') => (Returns a, s')
    | (Raises e, s') =>
        if exn_is_import_error e then handler s' else (Raises e, s')
    end.

Definition of_outcome {A} (r : outcome A) : M A := fun s => (r, s).

Definition returned {A} (r : outcome A) : bool :=
  match r with Returns _ => true | Raises _ => false end.

Definition logger (lvl : level) (msg : string) : M unit :=
  fun s => (Returns tt, add_event (ELog lvl msg) s).

(** A call to a collaborator, entered in the trace. *)
Definition extern {A} (c : call) (f : W -> outcome A * W) : M A :=
  fun s =>
    let (r, w') := f (world s) in
    (r, add_event (ECall c (returned r)) (set_world w' s)).

Notation "x <- c1 ;; c2" := (bind c1 (fun x => c2))
  (at level 61, c1 at next level, right associativity).
Notation "c1 ;; c2" := (bind c1 (fun _ => c2))
  (at level 61, right associativity).

Definition get_self : M LightRAGWrapper := fun s => (Returns (self s), s).

Variable env : Env.

(** *** Built-ins *)

(** [str(v)], also what an f-string field [{v}] prints. *)
Definition str (v : value) : string :=
  match v with
  | VNone => "None"
  | VBool true => "True"
  | VBool false => "False"
  | VInt z => str_of_Z z
  | VFloat r => r
  | VStr s => s
  | VList _ | VDict _ => repr_container env v
  end.

(** [str(o)] for an [Optional[str]] attribute. *)
Definition str_opt (o : option string) : string :=
  match o with Some s => s | None => "None" end.

Definition value_of_opt (o : option string) : value :=
  match o with Some s => VStr s | None => VNone end.

(** [len(v)] *)
Definition len (v : value) : outcome nat :=
  match v with
  | VStr s => Returns (String.length s)
  | VList l => Returns (List.length l)
  | VDict d => Returns (List.length d)
  | _ => Raises (TypeError ("object of type '" ++ type_name v ++ "' has no len()"))
  end.

Fixpoint chars (s : string) : list value :=
  match s with
  | EmptyString => []
  | String c s' => VStr (String c "") :: chars s'
  end.

(** The items [for x in v] visits. *)
Definition iter (v : value) : outcome (list value) :=
  match v with
  | VList l => Returns l
  | VStr s => Returns (chars s)
  | VDict d => Returns (map (fun kv => VStr (fst kv)) d)
  | _ => Raises (TypeError ("'" ++ type_name v ++ "' object is not iterable"))
  end.

(** [for x in items: acc = body x acc] *)
Fixpoint for_each {A B} (body : A -> B -> M B) (items : list A) (acc : B) : M B :=
  match items with
  | [] => ret acc
  | x :: xs => acc' <- body x acc ;; for_each body xs acc'
  end.

(** *** Keyword binding: [handler( **params )] *)

(** Declared parameters after [self], each with its default if any. *)
Definition signature := list (string * option value).

Definition declared (sig : signature) (k : string) : bool :=
  existsb (String.eqb k) (map fst sig).

Fixpoint first_undeclared (sig : signature) (keys : list string) : option string :=
  match keys with
  | [] => None
  | k :: ks => if declared sig k then first_undeclared sig ks else Some k
  end.

Fixpoint bind_declared (sig : signature) (kvs : dict) : kw_error + dict :=
  match sig with
  | [] => inr []
  | (name, default) :: sig' =>
      match
        match dict_get name kvs with
        | Some v => Some v
        | None => default
        end
      with
      | None => inl (MissingArgument name)
      | Some v =>
          match bind_declared sig' kvs with
          | inl err => inl err
          | inr rest => inr ((name, v) :: rest)
          end
      end
  end.

(** What [method( **params )] passes to the body of a bound method, or
    why the call cannot be made.  Keywords are examined in the order of
    the mapping, then the declared parameters in order. *)
Definition check_kwargs (sig : signature) (params : value) : kw_error + dict :=
  match params with
  | VDict kvs =>
      match first_undeclared sig (dict_keys kvs) with
      | Some k =>
          if String.eqb k "self" then inl (MultipleValues k)
          else inl (UnexpectedKeyword k)
      | None => bind_declared sig kvs
      end
  | _ => inl (NotAMapping params)
  end.

(** The arguments of the call, or its [TypeError]. *)
Definition bind_kwargs (qualname : string) (sig : signature) (params : value)
  : outcome dict :=
  match check_kwargs sig params with
  | inl err => Raises (TypeError (kw_error_msg env qualname err))
  | inr args => Returns args
  end.

(** The value bound to parameter [name]. *)
Definition arg (name : string) (args : dict) : value := get_default name VNone args.

(* ================================================================== *)
(** ** class LightRAGWrapper *)
(* ================================================================== *)

Definition nl : string := String (ascii_of_nat 10) "".
Definition dquote : string := String (ascii_of_nat 34) "".

(** [LightRAGWrapper(working_dir, ...)]: the state of the process once
    the constructor has returned, or the exception of [mkdir].  The
    attribute [working_dir] is a [Path]; it is kept as its text
    [str(self.working_dir)], while the log entry shows the argument. *)
Definition __init__ (working_dir openai_api_key openai_base_url : string)
    (openai_model openai_embedding_model : string)
    (milvus_address neo4j_uri neo4j_username neo4j_password : option string)
    (w : W) : outcome State :=
  match mkdir env (path_str env working_dir) w with
  | (Raises e, _) => Raises e
  | (Returns _, w') =>
      Returns
        {| self :=
             {| working_dir := path_str env working_dir;
                openai_api_key := openai_api_key;
                openai_base_url := openai_base_url;
                openai_model := openai_model;
                openai_embedding_model := openai_embedding_model;
                milvus_address := milvus_address;
                neo4j_uri := neo4j_uri;
                neo4j_username := or_default neo4j_username "neo4j";
                neo4j_password := neo4j_password;
                rag := None;
                _initialized := false |};
           world := w';
           trace :=
             [ ECall (CMkdir (path_str env working_dir)) true;
               ELog INFO ("LightRAGWrapper initialized with working_dir="
                          ++ working_dir);
               ELog INFO ("Storage: Milvus=" ++ str_opt milvus_address
                          ++ ", Neo4J=" ++ str_opt neo4j_uri) ];
           stdout := [] |}
  end.

(** [self.rag = h; self._initialized = True] *)
Definition set_rag (h : H) (me : LightRAGWrapper) : LightRAGWrapper :=
  {| working_dir := working_dir me;
     openai_api_key := openai_api_key me;
     openai_base_url := openai_base_url me;
     openai_model := openai_model me;
     openai_embedding_model := openai_embedding_model me;
     milvus_address := milvus_address me;
     neo4j_uri := neo4j_uri me;
     neo4j_username := neo4j_username me;
     neo4j_password := neo4j_password me;
     rag := Some h;
     _initialized := _initialized me |}.

Definition set_initialized (me : LightRAGWrapper) : LightRAGWrapper :=
  {| working_dir := working_dir me;
     openai_api_key := openai_api_key me;
     openai_base_url := openai_base_url me;
     openai_model := openai_model me;
     openai_embedding_model := openai_embedding_model me;
     milvus_address := milvus_address me;
     neo4j_uri := neo4j_uri me;
     neo4j_username := neo4j_username me;
     neo4j_password := neo4j_password me;
     rag := rag me;
     _initialized := true |}.

Definition assign (f : LightRAGWrapper -> LightRAGWrapper) : M unit :=
  fun s => (Returns tt, set_self f s).

Definition neo4j_module : string := "lightrag.kg.neo4j_impl".
Definition milvus_module : string := "lightrag.kg.milvus_impl".

(** The graph-storage entries of [storage_kwargs]. *)
Definition configure_graph_storage (me : LightRAGWrapper) : M dict :=
  if truthy_opt (neo4j_uri me) && truthy_opt (neo4j_password me) then
    try_except_ImportError
      (extern (CImport neo4j_module) (import_module env neo4j_module) ;;
       logger INFO "Using Neo4J for graph storage" ;;
       ret [ ("graph_storage", VStr "Neo4JStorage");
             ("neo4j_config",
              VDict [ ("uri", value_of_opt (neo4j_uri me));
                      ("username", VStr (neo4j_username me));
                      ("password", value_of_opt (neo4j_password me)) ]) ])
      (logger WARNING "Neo4J libraries not available, falling back to NetworkX" ;;
       ret [])
  else ret [].

(** The vector-storage entries of [storage_kwargs]. *)
Definition configure_vector_storage (me : LightRAGWrapper) : M dict :=
  if truthy_opt (milvus_address me) then
    try_except_ImportError
      (extern (CImport milvus_module) (import_module env milvus_module) ;;
       logger INFO "Using Milvus for vector storage" ;;
       ret [ ("vector_storage", VStr "MilvusVectorDBStorage");
             ("milvus_config",
              VDict [ ("address", value_of_opt (milvus_address me)) ]) ])
      (logger WARNING "Milvus libraries not available, falling back to NanoVectorDB" ;;
       ret [])
  else ret [].

Definition lightrag_args (me : LightRAGWrapper) (storage_kwargs : dict)
  : LightRAGArgs :=
  {| arg_working_dir := working_dir me;
     arg_llm_model_name := openai_model me;
     arg_llm_model_kwargs :=
       [ ("api_key", VStr (openai_api_key me));
         ("base_url", VStr (openai_base_url me)) ];
     arg_embedding_dim :=
       if contains "text-embedding-3" (openai_embedding_model me)
       then 3072 else 1536;
     arg_embedding_batch_num := 16;
     arg_embedding_func_max_async := 16;
     arg_storage_kwargs := storage_kwargs |}.

Definition setup_message : string := "Initializing LightRAG...".

(** [async def initialize(self)] *)
Definition initialize : M unit :=
  me <- get_self ;;
  if _initialized me then ret tt
  else
    logger INFO setup_message ;;
    graph_kwargs <- configure_graph_storage me ;;
    vector_kwargs <- configure_vector_storage me ;;
    let args := lightrag_args me (graph_kwargs ++ vector_kwargs)%list in
    h <- extern (CLightRAG args) (LightRAG env args) ;;
    assign (set_rag h) ;;
    assign set_initialized ;;
    logger INFO "LightRAG initialized successfully".

Definition no_attribute (name : string) : exn :=
  AttributeError ("'NoneType' object has no attribute '" ++ name ++ "'").

(** [await self.rag.ainsert(content)] *)
Definition rag_ainsert (content : value) : M unit :=
  me <- get_self ;;
  match rag me with
  | Some h => extern (CAinsert h content) (ainsert env h content)
  | None => raise (no_attribute "ainsert")
  end.

(** [str(await self.rag.aquery(query, param=QueryParam( **kw )))] *)
Definition rag_aquery (query : value) (kw : dict) : M string :=
  me <- get_self ;;
  match rag me with
  | Some h => extern (CAquery h query kw) (aquery env h query kw)
  | None => raise (no_attribute "aquery")
  end.

(** One pass of the loop of [index_files] over [file_path]; the
    accumulator is [(success_count, errors)]. *)
Definition index_file (file_path : value) (acc : Z * list value)
  : M (Z * list value) :=
  let (success_count, errors) := acc in
  try_except
    (found <- extern (CExists file_path) (path_exists env file_path) ;;
     if negb found then
       ret (success_count,
            (errors ++ [VStr ("File not found: " ++ str file_path)])%list)
     else
       content <- extern (CRead file_path) (read_file env file_path) ;;
       rag_ainsert (VStr content) ;;
       logger DEBUG ("Indexed: " ++ str file_path) ;;
       ret (success_count + 1, errors))
    (fun e =>
       let error_msg :=
         "Error indexing " ++ str file_path ++ ": " ++ exn_msg e in
       logger ERROR error_msg ;;
       ret (success_count, (errors ++ [VStr error_msg])%list)).

Definition index_result (success_count : Z) (errors : list value) (total : nat)
  : value :=
  VDict [ ("success_count", VInt success_count);
          ("error_count", VInt (Z.of_nat (List.length errors)));
          ("errors", VList errors);
          ("total", VInt (Z.of_nat total)) ].

(** [async def index_files(self, file_paths)] *)
Definition index_files (file_paths : value) : M value :=
  initialize ;;
  total <- of_outcome (len file_paths) ;;
  logger INFO ("Indexing " ++ str_of_nat total ++ " files...") ;;
  items <- of_outcome (iter file_paths) ;;
  acc <- for_each index_file items (0, []) ;;
  logger INFO ("Indexing complete: " ++ str_of_Z (fst acc) ++ "/"
               ++ str_of_nat total ++ " successful") ;;
  ret (index_result (fst acc) (snd acc) total).

Definition insert_result (success : bool) (message : string) : value :=
  VDict [ ("success", VBool success); ("message", VStr message) ].

(** [async def insert_text(self, text, metadata=None)] *)
Definition insert_text (text metadata : value) : M value :=
  initialize ;;
  n <- of_outcome (len text) ;;
  logger INFO ("Inserting text content (length: " ++ str_of_nat n ++ " chars)") ;;
  try_except
    (rag_ainsert text ;;
     ret (insert_result true
            ("Successfully inserted " ++ str_of_nat n ++ " characters")))
    (fun e =>
       let error_msg := "Error inserting text: " ++ exn_msg e in
       logger ERROR error_msg ;;
       ret (insert_result false error_msg)).

(** [if cond: logger.info(msg)] *)
Definition when (cond : bool) (m : M unit) : M unit :=
  if cond then m else ret tt.

(** [async def search_code(self, query, mode, top_k, ...)] *)
Definition search_code (query mode top_k only_context response_type : value)
    (max_token_for_text_unit max_token_for_global_context : value)
    (max_token_for_local_context hl_keywords ll_keywords : value) : M value :=
  initialize ;;
  logger INFO ("Searching: query='" ++ str query ++ "', mode=" ++ str mode
               ++ ", top_k=" ++ str top_k) ;;
  when (truthy hl_keywords)
    (logger INFO ("High-level keywords: " ++ str hl_keywords)) ;;
  when (truthy ll_keywords)
    (logger INFO ("Low-level keywords: " ++ str ll_keywords)) ;;
  try_except
    (let query_params :=
       ([ ("mode", mode);
          ("only_need_context", only_context);
          ("top_k", top_k);
          ("response_type", response_type);
          ("max_token_for_text_unit", max_token_for_text_unit);
          ("max_token_for_global_context", max_token_for_global_context);
          ("max_token_for_local_context", max_token_for_local_context) ]
        ++ (if truthy hl_keywords then [("hl_keywords", hl_keywords)] else [])
        ++ (if truthy ll_keywords then [("ll_keywords", ll_keywords)] else []))%list
     in
     result <- rag_aquery query query_params ;;
     ret (VDict [ ("answer", VStr result);
                  ("query", query);
                  ("mode", mode);
                  ("top_k", top_k) ]))
    (fun e =>
       logger ERROR ("Search error: " ++ exn_msg e) ;;
       raise e).

(** [async def get_entity(self, entity_name)] *)
Definition get_entity (entity_name : value) : M value :=
  initialize ;;
  logger INFO ("Getting entity: " ++ str entity_name) ;;
  result <- rag_aquery
              (VStr ("Describe the entity '" ++ str entity_name
                     ++ "' in detail. Include its purpose, methods, and usage."))
              [ ("mode", VStr "local");
                ("only_need_context", VBool true);
                ("top_k", VInt 10) ] ;;
  ret (VDict [ ("entity_name", entity_name);
               ("description", VStr result);
               ("search_mode", VStr "local") ]).

(** [async def get_relationships(self, entity_name, relation_type, depth)] *)
Definition get_relationships (entity_name relation_type depth : value)
  : M value :=
  initialize ;;
  logger INFO ("Getting relationships: entity=" ++ str entity_name
               ++ ", type=" ++ str relation_type
               ++ ", depth=" ++ str depth) ;;
  let query :=
    if truthy relation_type then
      "What " ++ str relation_type ++ " relationships does '"
      ++ str entity_name ++ "' have? Show dependencies up to depth "
      ++ str depth ++ "."
    else
      "What are all the relationships for '" ++ str entity_name
      ++ "'? Include calls, inheritance, and dependencies up to depth "
      ++ str depth ++ "."
  in
  result <- rag_aquery (VStr query)
              [ ("mode", VStr "local"); ("top_k", VInt 20) ] ;;
  ret (VDict [ ("entity_name", entity_name);
               ("relation_type",
                if truthy relation_type then relation_type else VStr "all");
               ("depth", depth);
               ("relationships", VStr result) ]).

(** [async def visualize_subgraph(self, query, format, max_nodes)] *)
Definition visualize_subgraph (query format max_nodes : value) : M value :=
  initialize ;;
  logger INFO ("Visualizing: query='" ++ str query ++ "', format="
               ++ str format ++ ", max_nodes=" ++ str max_nodes) ;;
  result <- rag_aquery
              (VStr (str query ++ ". List all entities and their relationships."))
              [ ("mode", VStr "hybrid"); ("top_k", max_nodes) ] ;;
  let diagram :=
    "graph TD" ++ nl
    ++ "    Query[" ++ dquote ++ str query ++ dquote ++ "]" ++ nl
    ++ "    Result[" ++ dquote ++ take 100 result ++ "..." ++ dquote ++ "]" ++ nl
    ++ "    Query --> Result" ++ nl
  in
  ret (VDict [ ("query", query);
               ("format", format);
               ("diagram", VStr diagram);
               ("max_nodes", max_nodes) ]).

(** [async def get_indexing_status(self)] *)
Definition get_indexing_status : M value :=
  initialize ;;
  logger INFO "Getting indexing status" ;;
  me <- get_self ;;
  working_dir_size <- extern (CDirSize (working_dir me))
                        (dir_size env (working_dir me)) ;;
  ret (VDict [ ("initialized", VBool (_initialized me));
               ("working_dir", VStr (working_dir me));
               ("working_dir_size_bytes", VInt working_dir_size);
               ("storage_backends",
                VDict [ ("milvus",
                         VStr (or_default (milvus_address me) "NanoVectorDB"));
                        ("neo4j",
                         VStr (or_default (neo4j_uri me) "NetworkX")) ]) ]).

(** [async def ping(self)] *)
Definition ping : M value := ret (VStr "pong").

(** *** The dispatcher *)

Definition sig_index_files : signature := [ ("file_paths", None) ].

Definition sig_insert_text : signature :=
  [ ("text", None); ("metadata", Some VNone) ].

Definition sig_search_code : signature :=
  [ ("query", None);
    ("mode", Some (VStr "hybrid"));
    ("top_k", Some (VInt 10));
    ("only_context", Some (VBool false));
    ("response_type", Some (VStr "Multiple Paragraphs"));
    ("max_token_for_text_unit", Some (VInt 4000));
    ("max_token_for_global_context", Some (VInt 4000));
    ("max_token_for_local_context", Some (VInt 4000));
    ("hl_keywords", Some VNone);
    ("ll_keywords", Some VNone) ].

Definition sig_get_entity : signature := [ ("entity_name", None) ].

Definition sig_get_relationships : signature :=
  [ ("entity_name", None); ("relation_type", Some VNone); ("depth", Some (VInt 1)) ].

Definition sig_visualize_subgraph : signature :=
  [ ("query", None); ("format", Some (VStr "mermaid")); ("max_nodes", Some (VInt 20)) ].

(** [await self.name( **params )]: bind, then run the body. *)
Definition call_kw (name : string) (sig : signature) (params : value)
    (body : dict -> M value) : M value :=
  args <- of_outcome (bind_kwargs ("LightRAGWrapper." ++ name ++ "()") sig params) ;;
  body args.

(** The [if]/[elif] chain of [handle_request]. *)
Definition dispatch (method params : value) : M value :=
  if eq_str method "ping" then ping
  else if eq_str method "index_files" then
    call_kw "index_files" sig_index_files params
      (fun a => index_files (arg "file_paths" a))
  else if eq_str method "search_code" then
    call_kw "search_code" sig_search_code params
      (fun a => search_code (arg "query" a) (arg "mode" a) (arg "top_k" a)
                  (arg "only_context" a) (arg "response_type" a)
                  (arg "max_token_for_text_unit" a)
                  (arg "max_token_for_global_context" a)
                  (arg "max_token_for_local_context" a)
                  (arg "hl_keywords" a) (arg "ll_keywords" a))
  else if eq_str method "get_entity" then
    call_kw "get_entity" sig_get_entity params
      (fun a => get_entity (arg "entity_name" a))
  else if eq_str method "get_relationships" then
    call_kw "get_relationships" sig_get_relationships params
      (fun a => get_relationships (arg "entity_name" a)
                  (arg "relation_type" a) (arg "depth" a))
  else if eq_str method "visualize_subgraph" then
    call_kw "visualize_subgraph" sig_visualize_subgraph params
      (fun a => visualize_subgraph (arg "query" a) (arg "format" a)
                  (arg "max_nodes" a))
  else if eq_str method "get_indexing_status" then get_indexing_status
  else if eq_str method "insert_text" then
    call_kw "insert_text" sig_insert_text params
      (fun a => insert_text (arg "text" a) (arg "metadata" a))
  else raise (ValueError ("Unknown method: " ++ str method)).

(** [request.get(key, default)] *)
Definition request_get (request : value) (key : string) (default : value)
  : M value :=
  match request with
  | VDict d => ret (get_default key default d)
  | _ => raise (AttributeError ("'" ++ type_name request
                                ++ "' object has no attribute 'get'"))
  end.

Definition application_error : Z := -32603.
Definition parse_error : Z := -32700.

Definition success_response (jsonrpc request_id result : value) : value :=
  VDict [ ("jsonrpc", jsonrpc); ("id", request_id); ("result", result) ].

Definition error_response (jsonrpc request_id : value) (e : exn) : value :=
  VDict [ ("jsonrpc", jsonrpc);
          ("id", request_id);
          ("error",
           VDict [ ("code", VInt application_error);
                   ("message", VStr (exn_msg e));
                   ("data", VDict [ ("type", VStr (exn_type e)) ]) ]) ].

(** [async def handle_request(self, request)] *)
Definition handle_request (request : value) : M value :=
  jsonrpc <- request_get request "jsonrpc" (VStr "2.0") ;;
  request_id <- request_get request "id" VNone ;;
  method <- request_get request "method" VNone ;;
  params <- request_get request "params" (VDict []) ;;
  try_except
    (result <- dispatch method params ;;
     ret (success_response jsonrpc request_id result))
    (fun e =>
       logger ERROR ("Error handling request: " ++ exn_msg e) ;;
       ret (error_response jsonrpc request_id e)).

(** *** The transport loop *)

Definition parse_error_response (msg : string) : value :=
  VDict [ ("jsonrpc", VStr "2.0");
          ("id", VNone);
          ("error",
           VDict [ ("code", VInt parse_error);
                   ("message", VStr "Parse error");
                   ("data", VStr msg) ]) ].

(** One pass of the loop of [run] on a line [readline] returned before
    the end of the stream. *)
Definition run_line (line : string) (s : State) : State :=
  let line := strip line in
  if String.eqb line "" then s
  else
    match json_loads env line with
    | JSONDecodeError msg =>
        write (json_dumps env (parse_error_response msg) ++ nl)
          (add_event (ELog ERROR ("Invalid JSON: " ++ msg)) s)
    | LoadFailure e =>
        add_event (ELog ERROR ("Unexpected error: " ++ exn_msg e)) s
    | Loaded request =>
        match handle_request request s with
        | (Returns response, s') => write (json_dumps env response ++ nl) s'
        | (Raises e, s') =>
            add_event (ELog ERROR ("Unexpected error: " ++ exn_msg e)) s'
        end
    end.

Definition shut_down (s : State) : State :=
  add_event (ELog INFO "EOF received, shutting down") s.

(** The [while True] loop over the lines [readline] returns; past the
    end of [stdin], [readline] returns the empty string. *)
Fixpoint run_loop (stdin : list string) (s : State) : State :=
  match stdin with
  | [] => shut_down s
  | line :: rest =>
      if String.eqb line "" then shut_down s
      else run_loop rest (run_line line s)
  end.

(** [async def run(self)] *)
Definition run (stdin : list string) (s : State) : State :=
  run_loop stdin
    (add_event (ELog INFO "LightRAG wrapper ready, listening on stdin...") s).

End Wrapper.


(* ================================================================== *)
(** ** A concrete environment *)
(* ================================================================== *)

(** An executable instance of [Env], on which the wrapper can be run:
    a file system given as a table, an engine that stores what it is
    given, a decoder and an encoder for JSON text. *)
Module JsonText.

Local Open Scope char_scope.

(** The result of scanning a prefix of the text: a value and the rest,
    a syntax error, or an exception that is not a syntax error. *)
Inductive scan (A : Type) : Type :=
| Scanned (a : A) (rest : string)
| Malformed
| Aborted (e : exn).
Arguments Malformed {A}.
Arguments Aborted {A} e.

Definition is_digit (c : ascii) : bool :=
  let n := nat_of_ascii c in ((48 <=? n) && (n <=? 57))%nat.

Definition is_json_space (c : ascii) : bool :=
  let n := nat_of_ascii c in
  ((n =? 32) || (n =? 9) || (n =? 10) || (n =? 13))%nat.

Fixpoint skip_space (s : string) : string :=
  match s with
  | String c s' => if is_json_space c then skip_space s' else s
  | EmptyString => EmptyString
  end.

Fixpoint skip_digits (s : string) : string :=
  match s with
  | String c s' => if is_digit c then skip_digits s' else s
  | EmptyString => EmptyString
  end.

(** The number the digits at the head of [s] denote. *)
Fixpoint digits (acc : Z) (s : string) : Z :=
  match s with
  | String c s' =>
      if is_digit c then digits (10 * acc + Z.of_nat (nat_of_ascii c - 48)) s'
      else acc
  | EmptyString => acc
  end.

(** The default of [sys.get_int_max_str_digits()]. *)
Definition int_max_str_digits : nat := 4300.

Definition digit_limit_error (n : nat) : exn :=
  ValueError ("Exceeds the limit (4300 digits) for integer string conversion: value has "
              ++ str_of_nat n
              ++ " digits; use sys.set_int_max_str_digits() to increase the limit")%string.

(** An integer literal: no leading zero, no fraction, no exponent.  A
    literal of more digits than the limit makes [int] raise. *)
Definition number (negative : bool) (s : string) : scan value :=
  match s with
  | String c s' =>
      if is_digit c then
        let rest := skip_digits s in
        let count := (String.length s - String.length rest)%nat in
        let leading_zero :=
          Ascii.eqb c "0" && match s' with
                             | String d _ => is_digit d
                             | EmptyString => false
                             end in
        let fractional :=
          match rest with
          | String d _ => Ascii.eqb d "." || Ascii.eqb d "e" || Ascii.eqb d "E"
          | EmptyString => false
          end in
        if leading_zero || fractional then Malformed
        else if (int_max_str_digits <? count)%nat
             then Aborted (digit_limit_error count)
             else Scanned (VInt (if negative then - digits 0 s else digits 0 s)) rest
      else Malformed
  | EmptyString => Malformed
  end.

(** The characters up to the closing quote; escapes are not decoded. *)
Fixpoint string_body (s : string) : option (string * string) :=
  match s with
  | String c s' =>
      if Ascii.eqb c (ascii_of_nat 34) then Some (EmptyString, s')
      else if Ascii.eqb c "\" || (nat_of_ascii c <? 32)%nat then None
      else match string_body s' with
           | Some (body, rest) => Some (String c body, rest)
           | None => None
           end
  | EmptyString => None
  end.

Definition keyword (word : string) (v : value) (s : string) : scan value :=
  if String.prefix word s
  then Scanned v (String.substring (String.length word)
                    (String.length s - String.length word) s)
  else Malformed.

Fixpoint decode (fuel : nat) (s : string) : scan value :=
  match fuel with
  | O => Malformed
  | S fuel' =>
      match skip_space s with
      | String c s' =>
          if Ascii.eqb c "n" then keyword "null" VNone (String c s')
          else if Ascii.eqb c "t" then keyword "true" (VBool true) (String c s')
          else if Ascii.eqb c "f" then keyword "false" (VBool false) (String c s')
          else if Ascii.eqb c "-" then number true s'
          else if is_digit c then number false (String c s')
          else if Ascii.eqb c (ascii_of_nat 34) then
            match string_body s' with
            | Some (body, rest) => Scanned (VStr body) rest
            | None => Malformed
            end
          else if Ascii.eqb c "[" then
            match skip_space s' with
            | String d rest =>
                if Ascii.eqb d "]" then Scanned (VList []) rest
                else match decode_items fuel' s' with
                     | Scanned items rest' => Scanned (VList items) rest'
                     | Malformed => Malformed
                     | Aborted e => Aborted e
                     end
            | EmptyString => Malformed
            end
          else if Ascii.eqb c "{" then
            match skip_space s' with
            | String d rest =>
                if Ascii.eqb d "}" then Scanned (VDict []) rest
                else match decode_members fuel' s' with
                     | Scanned members rest' => Scanned (VDict members) rest'
                     | Malformed => Malformed
                     | Aborted e => Aborted e
                     end
            | EmptyString => Malformed
            end
          else Malformed
      | EmptyString => Malformed
      end
  end

with decode_items (fuel : nat) (s : string) : scan (list value) :=
  match fuel with
  | O => Malformed
  | S fuel' =>
      match decode fuel' s with
      | Scanned v rest =>
          match skip_space rest with
          | String c rest' =>
              if Ascii.eqb c "]" then Scanned [v] rest'
              else if Ascii.eqb c "," then
                match decode_items fuel' rest' with
                | Scanned vs rest'' => Scanned (v :: vs) rest''
                | Malformed => Malformed
                | Aborted e => Aborted e
                end
              else Malformed
          | EmptyString => Malformed
          end
      | Malformed => Malformed
      | Aborted e => Aborted e
      end
  end

with decode_members (fuel : nat) (s : string) : scan dict :=
  match fuel with
  | O => Malformed
  | S fuel' =>
      match skip_space s with
      | String q s' =>
          if Ascii.eqb q (ascii_of_nat 34) then
            match string_body s' with
            | Some (key, rest) =>
                match skip_space rest with
                | String c rest' =>
                    if Ascii.eqb c ":" then
                      match decode fuel' rest' with
                      | Scanned v rest'' =>
                          match skip_space rest'' with
                          | String e rest3 =>
                              if Ascii.eqb e "}" then Scanned [(key, v)] rest3
                              else if Ascii.eqb e "," then
                                match decode_members fuel' rest3 with
                                | Scanned ms rest4 => Scanned ((key, v) :: ms) rest4
                                | Malformed => Malformed
                                | Aborted e' => Aborted e'
                                end
                              else Malformed
                          | EmptyString => Malformed
                          end
                      | Malformed => Malformed
                      | Aborted e => Aborted e
                      end
                    else Malformed
                | EmptyString => Malformed
                end
            | None => Malformed
            end
          else Malformed
      | EmptyString => Malformed
      end
  end.

(** [json.loads] on the fragment of JSON without escapes, fractions and
    exponents, and without repeated keys.  The text of a syntax error is
    not the library's. *)
Definition loads (s : string) : loaded :=
  match decode (3 * String.length s + 3) s with
  | Scanned v rest =>
      match skip_space rest with
      | EmptyString => Loaded v
      | String _ _ => JSONDecodeError "Extra data"%string
      end
  | Malformed => JSONDecodeError "Expecting value"%string
  | Aborted e => LoadFailure e
  end.

End JsonText.

Module Sample.

Definition hex_digit (n : nat) : ascii :=
  ascii_of_nat (if (n <? 10)%nat then 48 + n else 87 + n).

(** One character inside a JSON string literal, [ensure_ascii] style. *)
Definition escape_char (c : ascii) : string :=
  let n := nat_of_ascii c in
  if (n =? 34)%nat then "\" ++ dquote
  else if (n =? 92)%nat then "\\"
  else if (n =? 10)%nat then "\n"
  else if (n =? 13)%nat then "\r"
  else if (n =? 9)%nat then "\t"
  else if (n =? 8)%nat then "\b"
  else if (n =? 12)%nat then "\f"
  else if ((n <? 32) || (126 <? n))%nat then
    "\u00" ++ String (hex_digit (n / 16)) (String (hex_digit (n mod 16)) "")
  else String c "".

Fixpoint escape (s : string) : string :=
  match s with
  | EmptyString => ""
  | String c s' => escape_char c ++ escape s'
  end.

Definition quote (s : string) : string := dquote ++ escape s ++ dquote.

(** [json.dumps] with its default separators. *)
Fixpoint dumps (v : value) : string :=
  match v with
  | VNone => "null"
  | VBool true => "true"
  | VBool false => "false"
  | VInt z => str_of_Z z
  | VFloat r => r
  | VStr s => quote s
  | VList items =>
      "[" ++ (fix join (l : list value) : string :=
                match l with
                | [] => ""
                | x :: xs =>
                    dumps x ++ match xs with [] => "" | _ => ", " ++ join xs end
                end) items ++ "]"
  | VDict kvs =>
      "{" ++ (fix join (l : list (string * value)) : string :=
                match l with
                | [] => ""
                | (k, x) :: xs =>
                    quote k ++ ": " ++ dumps x
                    ++ match xs with [] => "" | _ => ", " ++ join xs end
                end) kvs ++ "}"
  end.

(** [repr] of a value whose strings hold no quote and no escape. *)
Fixpoint repr (v : value) : string :=
  match v with
  | VNone => "None"
  | VBool true => "True"
  | VBool false => "False"
  | VInt z => str_of_Z z
  | VFloat r => r
  | VStr s => "'" ++ s ++ "'"
  | VList items =>
      "[" ++ (fix join (l : list value) : string :=
                match l with
                | [] => ""
                | x :: xs =>
                    repr x ++ match xs with [] => "" | _ => ", " ++ join xs end
                end) items ++ "]"
  | VDict kvs =>
      "{" ++ (fix join (l : list (string * value)) : string :=
                match l with
                | [] => ""
                | (k, x) :: xs =>
                    "'" ++ k ++ "': " ++ repr x
                    ++ match xs with [] => "" | _ => ", " ++ join xs end
                end) kvs ++ "}"
  end.

Definition kw_message (qualname : string) (err : kw_error) : string :=
  match err with
  | NotAMapping v =>
      qualname ++ " argument after ** must be a mapping, not " ++ type_name v
  | MultipleValues k =>
      qualname ++ " got multiple values for argument '" ++ k ++ "'"
  | UnexpectedKeyword k =>
      qualname ++ " got an unexpected keyword argument '" ++ k ++ "'"
  | MissingArgument k =>
      qualname ++ " missing 1 required positional argument: '" ++ k ++ "'"
  end.

(** The world outside the wrapper: the text files, the modules that can
    be imported, whether the engine can be constructed, and the
    documents the engine holds. *)
Record World : Type := {
  files : list (string * string);
  modules : list string;
  engine_ok : bool;
  documents : list value
}.

Definition store (doc : value) (w : World) : World :=
  {| files := files w; modules := modules w; engine_ok := engine_ok w;
     documents := documents w ++ [doc] |}.

Fixpoint lookup (path : string) (table : list (string * string)) : option string :=
  match table with
  | [] => None
  | (p, text) :: table' => if String.eqb p path then Some text else lookup path table'
  end.

Definition OSError (kind msg : string) : exn := Exn kind msg false.

Definition sample_import (name : string) (w : World) : outcome unit * World :=
  if existsb (String.eqb name) (modules w) then (Returns tt, w)
  else (Raises (Exn "ModuleNotFoundError" ("No module named '" ++ name ++ "'") true), w).

(** The engine handle is the number of the construction. *)
Definition sample_LightRAG (args : LightRAGArgs) (w : World) : outcome nat * World :=
  if engine_ok w then (Returns 1%nat, w)
  else (Raises (ValueError "storage backend is not reachable"), w).

(** The engine refuses empty content. *)
Definition sample_ainsert (h : nat) (content : value) (w : World)
  : outcome unit * World :=
  if truthy content then (Returns tt, store content w)
  else (Raises (ValueError "empty content"), w).

Definition sample_aquery (h : nat) (query : value) (kw : dict) (w : World)
  : outcome string * World :=
  (Returns (str_of_nat (List.length (documents w)) ++ " documents"), w).

Definition sample_exists (path : value) (w : World) : outcome bool * World :=
  match path with
  | VStr p => (Returns (match lookup p (files w) with Some _ => true | None => false end), w)
  | _ => (Raises (TypeError "expected str, bytes or os.PathLike object"), w)
  end.

Definition sample_read (path : value) (w : World) : outcome string * World :=
  match path with
  | VStr p =>
      match lookup p (files w) with
      | Some text => (Returns text, w)
      | None => (Raises (OSError "FileNotFoundError" "No such file or directory"), w)
      end
  | _ => (Raises (TypeError "expected str, bytes or os.PathLike object"), w)
  end.

Definition sample_dir_size (dir : string) (w : World) : outcome Z * World :=
  (Returns (Z.of_nat (List.length (documents w)) * 4096), w).

Definition sample_mkdir (dir : string) (w : World) : outcome unit * World :=
  (Returns tt, w).

(** The components of a path: the text between slashes, without the
    empty ones and the dots. *)
Fixpoint components (current : string) (p : string) : list string :=
  let close :=
    if String.eqb current "" || String.eqb current "." then [] else [current] in
  match p with
  | EmptyString => close
  | String c p' =>
      if Ascii.eqb c "/"%char then (close ++ components "" p')%list
      else components (current ++ String c "") p'
  end.

Fixpoint join_path (parts : list string) : string :=
  match parts with
  | [] => ""
  | [part] => part
  | part :: parts' => part ++ "/" ++ join_path parts'
  end.

Fixpoint leading_slashes (p : string) : nat :=
  match p with
  | String c p' => if Ascii.eqb c "/"%char then S (leading_slashes p') else O
  | EmptyString => O
  end.

(** [str(PurePosixPath(p))] *)
Definition posix_path_str (p : string) : string :=
  let body := join_path (components "" p) in
  match leading_slashes p with
  | O => if String.eqb body "" then "." else body
  | 2%nat => "//" ++ body
  | _ => "/" ++ body
  end.

Definition env : Env World nat :=
  {| json_loads := JsonText.loads;
     path_str := posix_path_str;
     json_dumps := dumps;
     repr_container := repr;
     kw_error_msg := kw_message;
     import_module := sample_import;
     LightRAG := sample_LightRAG;
     ainsert := sample_ainsert;
     aquery := sample_aquery;
     path_exists := sample_exists;
     read_file := sample_read;
     dir_size := sample_dir_size;
     mkdir := sample_mkdir |}.

End Sample.

Arguments ELog {H} lvl msg.
Arguments CImport {H} module.
Arguments CLightRAG {H} args.
Arguments CExists {H} path.
Arguments CRead {H} path.
Arguments CDirSize {H} dir.
Arguments CMkdir {H} dir.

(* ================================================================== *)
(** ** Observations on requests, responses and traces *)
(* ================================================================== *)

(** The names [dispatch] tests for, each with the parameters its handler
    declares after [self]. *)
Definition method_table : list (string * signature) :=
  [ ("ping", []);
    ("index_files", sig_index_files);
    ("search_code", sig_search_code);
    ("get_entity", sig_get_entity);
    ("get_relationships", sig_get_relationships);
    ("visualize_subgraph", sig_visualize_subgraph);
    ("get_indexing_status", []);
    ("insert_text", sig_insert_text) ].

Fixpoint table_get (name : string) (table : list (string * signature))
  : option signature :=
  match table with
  | [] => None
  | (n, sig) :: table' => if String.eqb name n then Some sig else table_get name table'
  end.

Definition signature_of (method : value) : option signature :=
  match method with
  | VStr name => table_get name method_table
  | _ => None
  end.

Definition registered (method : value) : bool :=
  match signature_of method with Some _ => true | None => false end.

(** The keywords of [params] fit the parameters the handler declares. *)
Definition binds (method params : value) : bool :=
  match signature_of method with
  | Some sig => match check_kwargs sig params with inr _ => true | inl _ => false end
  | None => false
  end.

(** Some key of the mapping is not a declared parameter. *)
Definition has_undeclared (sig : signature) (kvs : dict) : bool :=
  existsb (fun k => negb (declared sig k)) (dict_keys kvs).

(** Some parameter without a default is not a key of the mapping. *)
Definition lacks_required (sig : signature) (kvs : dict) : bool :=
  existsb (fun p => match snd p with
                    | None => negb (has_key (fst p) kvs)
                    | Some _ => false
                    end) sig.

Definition mismatched (sig : signature) (kvs : dict) : bool :=
  has_undeclared sig kvs || lacks_required sig kvs.

(** The methods [dispatch] calls with [**params]: all but [ping] and
    [get_indexing_status]. *)
Definition takes_params (name : string) : bool :=
  negb (String.eqb name "ping" || String.eqb name "get_indexing_status").

Definition field (k : string) (v : value) : option value :=
  match v with VDict d => dict_get k d | _ => None end.

Definition has_field (k : string) (v : value) : bool :=
  match field k v with Some _ => true | None => false end.

(** [response["error"][k]] *)
Definition error_field (k : string) (response : value) : option value :=
  match field "error" response with
  | Some e => field k e
  | None => None
  end.

(** Exactly one of [result] and [error] is a key of the response. *)
Definition one_of_result_error (response : value) : bool :=
  xorb (has_field "result" response) (has_field "error" response).

Section Observations.

Variables W H : Type.
Variable env : Env W H.

Definition is_construction (e : event H) : bool :=
  match e with
  | ECall (CLightRAG _) true => true
  | _ => false
  end.

Definition is_setup (e : event H) : bool :=
  match e with
  | ELog INFO msg => String.eqb msg setup_message
  | _ => false
  end.

(** Engine handles constructed so far. *)
Definition constructions (t : list (event H)) : nat :=
  List.length (filter is_construction t).

(** Times the set-up of [initialize] (backend selection, then the
    constructor call) has been entered so far. *)
Definition setup_runs (t : list (event H)) : nat :=
  List.length (filter is_setup t).

(** A wrapper on which no initialisation has succeeded yet. *)
Definition fresh (s : State W H) : Prop :=
  rag (self s) = None
  /\ _initialized (self s) = false
  /\ constructions (trace s) = 0%nat.

(** The flag and the handle agree with the constructions in the trace. *)
Definition consistent (s : State W H) : Prop :=
  if _initialized (self s)
  then rag (self s) <> None /\ constructions (trace s) = 1%nat
  else constructions (trace s) = 0%nat.

(** What a computation leaves untouched when it is [quiet]: standard
    output, the attributes of the wrapper, and the numbers of
    constructions and of set-up runs. *)
Definition unchanged (s s' : State W H) : Prop :=
  stdout s' = stdout s
  /\ self s' = self s
  /\ constructions (trace s') = constructions (trace s)
  /\ setup_runs (trace s') = setup_runs (trace s).

Definition quiet {A} (m : M W H A) : Prop :=
  forall s, unchanged s (snd (m s)).

(** A computation that writes nothing, keeps the state [consistent], and
    is [quiet] on an initialised wrapper. *)
Definition safe {A} (m : M W H A) : Prop :=
  forall s,
    stdout (snd (m s)) = stdout s
    /\ (consistent s -> consistent (snd (m s)))
    /\ (_initialized (self s) = true -> unchanged s (snd (m s))).

(** A call on the wrapper: [initialize] itself, or a request handed to
    [handle_request]. *)
Inductive op : Type :=
| Initialize
| Handle (request : value).

Definition exec (o : op) (s : State W H) : State W H :=
  match o with
  | Initialize => snd (initialize env s)
  | Handle request => snd (handle_request env request s)
  end.

Definition exec_all (ops : list op) (s : State W H) : State W H :=
  fold_left (fun s o => exec o s) ops s.

(** The call returns rather than raises. *)
Definition succeeds {A} (m : M W H A) (s : State W H) : bool :=
  returned (fst (m s)).

Definition is_blank (line : string) : bool := String.eqb (strip line) "".

(** What a pass of the loop of [index_files] can do with a path: count
    it as indexed, or add one message to [errors]. *)
Inductive file_outcome (path : value) : option string -> Prop :=
| Indexed : file_outcome path None
| NotFound : file_outcome path (Some ("File not found: " ++ str env path))
| Failed (e : exn) :
    file_outcome path
      (Some ("Error indexing " ++ str env path ++ ": " ++ exn_msg e)).

(** The accumulator of the loop after a pass with outcome [o]. *)
Definition tally (acc : Z * list value) (o : option string) : Z * list value :=
  match o with
  | None => (fst acc + 1, snd acc)
  | Some m => (fst acc, (snd acc ++ [VStr m])%list)
  end.

(** The paths whose existence has been tested so far, in order. *)
Definition checked (t : list (event H)) : list value :=
  flat_map (fun e => match e with
                     | ECall (CExists p) _ => [p]
                     | _ => []
                     end) t.

Definition messages (outcomes : list (option string)) : list value :=
  flat_map (fun o => match o with Some m => [VStr m] | None => [] end) outcomes.

Definition successes (outcomes : list (option string)) : Z :=
  Z.of_nat (List.length (filter (fun o => match o with
                                          | None => true
                                          | Some _ => false
                                          end) outcomes)).

End Observations.

(** Two processes on the sample environment: one whose engine can be
    constructed, one whose constructor raises. *)
Module Scenario.

Definition outside (engine_ok : bool) : Sample.World :=
  {| Sample.files := [ ("a.txt", "hello") ];
     Sample.modules := [ neo4j_module ];
     Sample.engine_ok := engine_ok;
     Sample.documents := [] |}.

Definition wrapper : LightRAGWrapper nat :=
  {| working_dir := "/tmp/test-lightrag";
     openai_api_key := "test-key";
     openai_base_url := "https://test.com";
     openai_model := "gpt-5";
     openai_embedding_model := "text-embedding-3-large";
     milvus_address := None;
     neo4j_uri := Some "neo4j://localhost:7687";
     neo4j_username := "neo4j";
     neo4j_password := Some "pass";
     rag := None;
     _initialized := false |}.

Definition state (engine_ok : bool) : State Sample.World nat :=
  {| self := wrapper; world := outside engine_ok; trace := []; stdout := [] |}.

Definition working : State Sample.World nat := state true.
Definition broken : State Sample.World nat := state false.

Definition request (id : Z) (method : string) (params : dict) : dict :=
  [ ("jsonrpc", VStr "2.0"); ("id", VInt id); ("method", VStr method);
    ("params", VDict params) ].

Definition ping_request : dict := request 1 "ping" [].

Definition unknown_request : dict := request 2 "delete_everything" [].

Definition no_method_request : dict := [ ("jsonrpc", VStr "2.0"); ("id", VInt 3) ].

Definition extra_key_request : dict :=
  request 4 "get_entity" [ ("entity_name", VStr "Foo"); ("verbose", VBool true) ].

Definition ping_with_params : dict := request 5 "ping" [ ("verbose", VBool true) ].

(** Calls made in turn on one wrapper. *)
Definition calls : list op :=
  [ Initialize; Handle (VDict ping_request); Handle (VDict unknown_request);
    Initialize ].

Definition quoted (s : string) : string := dquote ++ s ++ dquote.

(** The frame [{"id": 7, "method": "ping"}]. *)
Definition line_ping : string :=
  "{" ++ quoted "id" ++ ": 7, " ++ quoted "method" ++ ": " ++ quoted "ping"
  ++ "}" ++ nl.

(** A frame that is valid JSON but not an object. *)
Definition line_number : string := "42" ++ nl.

(** A truncated frame. *)
Definition line_truncated : string := "{" ++ quoted "id" ++ ": 7, " ++ nl.

End Scenario.

(* ================================================================== *)
(** ** The entry point and further observations *)
(* ================================================================== *)

(** [os.environ] *)
Definition environment := list (string * string).

Fixpoint environ_get (name : string) (environ : environment) : option string :=
  match environ with
  | [] => None
  | (n, v) :: environ' =>
      if String.eqb n name then Some v else environ_get name environ'
  end.

(** [os.environ.get(name, default)] *)
Definition getenv (name default : string) (environ : environment) : string :=
  match environ_get name environ with Some v => v | None => default end.

(** The exception of [os.environ[name]] on a missing name. *)
Definition KeyError (name : string) : exn :=
  Exn "KeyError" ("'" ++ name ++ "'") false.

(** [params] is a mapping. *)
Definition is_mapping (params : value) : bool :=
  match params with VDict _ => true | _ => false end.

(** The dict [search_code] hands to [QueryParam]. *)
Definition search_query_params (mode only_context top_k response_type : value)
    (max_token_for_text_unit max_token_for_global_context : value)
    (max_token_for_local_context hl_keywords ll_keywords : value) : dict :=
  ([ ("mode", mode);
     ("only_need_context", only_context);
     ("top_k", top_k);
     ("response_type", response_type);
     ("max_token_for_text_unit", max_token_for_text_unit);
     ("max_token_for_global_context", max_token_for_global_context);
     ("max_token_for_local_context", max_token_for_local_context) ]
   ++ (if truthy hl_keywords then [("hl_keywords", hl_keywords)] else [])
   ++ (if truthy ll_keywords then [("ll_keywords", ll_keywords)] else []))%list.

(** The diagram of [visualize_subgraph] around a piece of the answer. *)
Definition render_diagram (query snippet : string) : string :=
  "graph TD" ++ nl
  ++ "    Query[" ++ dquote ++ query ++ dquote ++ "]" ++ nl
  ++ "    Result[" ++ dquote ++ snippet ++ "..." ++ dquote ++ "]" ++ nl
  ++ "    Query --> Result" ++ nl.

(** A line of output: some text and a newline. *)
Definition framed (text : string) : Prop := exists body, text = body ++ nl.

Section Session.

Variables W H : Type.
Variable env : Env W H.

(** [async def main()], on the environment variables, the lines of
    standard input and the world: the state of the process when [run]
    has returned, or the exception that ends the process. *)
Definition main (environ : environment) (stdin : list string) (w : W)
  : outcome (State W H) :=
  match environ_get "OPENAI_API_KEY" environ with
  | None => Raises (KeyError "OPENAI_API_KEY")
  | Some openai_api_key =>
      match
        __init__ env
          (getenv "LIGHTRAG_WORKING_DIR" "./dev-data" environ)
          openai_api_key
          (getenv "OPENAI_BASE_URL" "https://api.openai.com/v1" environ)
          (getenv "OPENAI_MODEL" "gpt-4" environ)
          (getenv "OPENAI_EMBEDDING_MODEL" "text-embedding-ada-002" environ)
          (environ_get "MILVUS_ADDRESS" environ)
          (environ_get "NEO4J_URI" environ)
          (Some (getenv "NEO4J_USERNAME" "neo4j" environ))
          (environ_get "NEO4J_PASSWORD" environ)
          w
      with
      | Raises e => Raises e
      | Returns s => Returns (run env stdin s)
      end
  end.

(** The wrapper is initialised and holds the handle [h]. *)
Definition ready (h : H) (s : State W H) : Prop :=
  _initialized (self s) = true /\ rag (self s) = Some h.

(** The attributes [__init__] sets from its arguments. *)
Definition configuration (me : LightRAGWrapper H) :=
  (working_dir me, openai_api_key me, openai_base_url me, openai_model me,
   openai_embedding_model me, milvus_address me, neo4j_uri me,
   neo4j_username me, neo4j_password me).

Definition same_configuration (s s' : State W H) : Prop :=
  configuration (self s') = configuration (self s).

(** Every run of [m] relates the state before to the state after. *)
Definition respects (R : State W H -> State W H -> Prop) {A} (m : M W H A)
  : Prop :=
  forall s, R s (snd (m s)).

(** What becomes of a path handed to [index_files]. *)
Inductive fate : Type :=
| Stored
| Missing
| Failure (e : exn).

(** The fate of [path] from the answers of the collaborators, and the
    world they leave: the file is missing, or the existence test, the
    read or the insertion raises, or the engine accepts the content. *)
Definition fate_of (handle : option H) (path : value) (w : W) : fate * W :=
  match path_exists env path w with
  | (Raises e, w1) => (Failure e, w1)
  | (Returns false, w1) => (Missing, w1)
  | (Returns true, w1) =>
      match read_file env path w1 with
      | (Raises e, w2) => (Failure e, w2)
      | (Returns content, w2) =>
          match handle with
          | None => (Failure (no_attribute "ainsert"), w2)
          | Some h =>
              match ainsert env h (VStr content) w2 with
              | (Returns _, w3) => (Stored, w3)
              | (Raises e, w3) => (Failure e, w3)
              end
          end
      end
  end.

(** The message [errors] receives for a path with that fate, if any. *)
Definition report (path : value) (f : fate) : option string :=
  match f with
  | Stored => None
  | Missing => Some ("File not found: " ++ str env path)
  | Failure e => Some ("Error indexing " ++ str env path ++ ": " ++ exn_msg e)
  end.

(** The fates of the paths of a batch, in order, from the world the
    batch starts in. *)
Fixpoint fates (handle : option H) (paths : list value) (w : W) : list fate :=
  match paths with
  | [] => []
  | path :: paths' =>
      fst (fate_of handle path w)
      :: fates handle paths' (snd (fate_of handle path w))
  end.

Fixpoint reports (paths : list value) (fs : list fate) : list (option string) :=
  match paths, fs with
  | path :: paths', f :: fs' => report path f :: reports paths' fs'
  | _, _ => []
  end.

(** The paths of a batch that were not stored. *)
Definition failing (fs : list fate) : nat :=
  List.length (filter (fun f => match f with Stored => false | _ => true end) fs).

(** The lines [run] reads before the end of the stream. *)
Fixpoint frames (stdin : list string) : list string :=
  match stdin with
  | [] => []
  | line :: rest => if String.eqb line "" then [] else line :: frames rest
  end.

(** The lines for which [run] writes a response: not blank, and either
    refused by [json.loads] with a [JSONDecodeError] or decoded to an
    object. *)
Definition answered (line : string) : bool :=
  negb (is_blank line)
  && match json_loads env (strip line) with
     | JSONDecodeError _ => true
     | LoadFailure _ => false
     | Loaded request => is_mapping request
     end.

(** The insertions the engine has accepted so far. *)
Definition accepted (t : list (event H)) : nat :=
  List.length (filter (fun ev => match ev with
                                 | ECall (CAinsert _ _) true => true
                                 | _ => false
                                 end) t).

(** The engine calls of a trace, in order. *)
Definition engine_calls (t : list (event H)) : list (call H) :=
  flat_map (fun ev => match ev with
                      | ECall (CAinsert h c) _ => [CAinsert h c]
                      | ECall (CAquery h q kw) _ => [CAquery h q kw]
                      | _ => []
                      end) t.

End Session.

(** More processes on the sample environment. *)
Module Cases.

(** The graph backend is configured but its module cannot be imported. *)
Definition without_modules : State Sample.World nat :=
  {| self := Scenario.wrapper;
     world := {| Sample.files := [];
                 Sample.modules := [];
                 Sample.engine_ok := true;
                 Sample.documents := [] |};
     trace := [];
     stdout := [] |}.

(** A wrapper without optional endpoints. *)
Definition plain_wrapper : LightRAGWrapper nat :=
  {| working_dir := "dev-data";
     openai_api_key := "test-key";
     openai_base_url := "https://api.openai.com/v1";
     openai_model := "gpt-4";
     openai_embedding_model := "text-embedding-ada-002";
     milvus_address := None;
     neo4j_uri := Some "neo4j://localhost:7687";
     neo4j_username := "neo4j";
     neo4j_password := None;
     rag := None;
     _initialized := false |}.

Definition plain : State Sample.World nat :=
  {| self := plain_wrapper; world := Scenario.outside true; trace := [];
     stdout := [] |}.

(** The wrapper of [Scenario.working] once [initialize] has returned. *)
Definition initialised : State Sample.World nat :=
  snd (initialize Sample.env Scenario.working).

(** Two requests that differ in keys [handle_request] does not read. *)
Definition plain_ping : dict := [ ("id", VInt 1); ("method", VStr "ping") ].

Definition decorated_ping : dict :=
  [ ("id", VInt 1); ("method", VStr "ping"); ("trace_id", VStr "abc");
    ("meta", VDict [ ("retry", VInt 2) ]) ].

Definition null_params_request : dict :=
  [ ("jsonrpc", VStr "2.0"); ("id", VInt 6); ("method", VStr "insert_text");
    ("params", VNone) ].

Definition environ : environment :=
  [ ("OPENAI_API_KEY", "test-key"); ("HOME", "/root") ].

Fixpoint ones (n : nat) : string :=
  match n with
  | O => ""
  | S n' => String "1"%char (ones n')
  end.

(** A truncated frame: an array that is never closed, whose first
    element is an integer literal of 4301 digits. *)
Definition line_truncated_digits : string := "[" ++ ones 4301 ++ nl.

End Cases.

(* ================================================================== *)
(** ** Properties *)
(* ================================================================== *)

Unset Implicit Arguments.

Section Properties.

Variables W H : Type.
Variable env : Env W H.

Implicit Types (s : State W H) (d : dict) (e : exn).

(** *** The dispatcher *)

(** On a request object, [handle_request] wraps what [dispatch] does. *)
Lemma handle_request_dict d s :
  handle_request env (VDict d) s =
  match dispatch env (get_default "method" VNone d)
          (get_default "params" (VDict []) d) s with
  | (Returns result, s') =>
      (Returns (success_response (get_default "jsonrpc" (VStr "2.0") d)
                  (get_default "id" VNone d) result), s')
  | (Raises e, s') =>
      (Returns (error_response (get_default "jsonrpc" (VStr "2.0") d)
                  (get_default "id" VNone d) e),
       add_event (ELog ERROR ("Error handling request: " ++ exn_msg e)) s')
  end.
Proof.
  unfold handle_request, request_get, bind, ret, try_except, logger.
  destruct (dispatch env _ _ s) as [[result | e] s']; reflexivity.
Qed.

(** A request that is not an object raises before the [try]. *)
Lemma handle_request_not_dict request s :
  (forall d, request <> VDict d) ->
  handle_request env request s =
  (Raises (AttributeError ("'" ++ type_name request
                           ++ "' object has no attribute 'get'")), s).
Proof.
  intros Hnot. destruct request; try reflexivity.
  exfalso. apply (Hnot kvs). reflexivity.
Qed.

Lemma success_response_shape jsonrpc request_id result :
  field "id" (success_response jsonrpc request_id result) = Some request_id
  /\ one_of_result_error (success_response jsonrpc request_id result) = true.
Proof. split; reflexivity. Qed.

Lemma error_response_shape jsonrpc request_id e :
  field "id" (error_response jsonrpc request_id e) = Some request_id
  /\ one_of_result_error (error_response jsonrpc request_id e) = true
  /\ has_field "result" (error_response jsonrpc request_id e) = false
  /\ error_field "code" (error_response jsonrpc request_id e)
     = Some (VInt (-32603))
  /\ error_field "message" (error_response jsonrpc request_id e)
     = Some (VStr (exn_msg e)).
Proof. repeat split; reflexivity. Qed.

(** A method outside the table falls through every test of [dispatch]. *)
Lemma dispatch_unknown method params s :
  registered method = false ->
  dispatch env method params s
  = (Raises (ValueError ("Unknown method: " ++ str env method)), s).
Proof.
  unfold registered, signature_of, dispatch.
  destruct method as [| b | z | r | name | items | kvs]; try reflexivity.
  simpl.
  repeat match goal with
         | |- context [String.eqb name ?lit] =>
             destruct (String.eqb name lit); [discriminate |]
         end.
  reflexivity.
Qed.

Lemma unknown_method_response d s :
  registered (get_default "method" VNone d) = false ->
  handle_request env (VDict d) s
  = (Returns (error_response (get_default "jsonrpc" (VStr "2.0") d)
                (get_default "id" VNone d)
                (ValueError ("Unknown method: "
                             ++ str env (get_default "method" VNone d)))),
     add_event (ELog ERROR ("Error handling request: Unknown method: "
                            ++ str env (get_default "method" VNone d))) s).
Proof.
  intros Hreg. rewrite handle_request_dict.
  rewrite (dispatch_unknown _ _ _ Hreg). reflexivity.
Qed.

(** C1.  For a request object whose method is registered and whose
    parameters bind to the handler, [handle_request] returns a response
    whose [id] is the request's [id] ([None] when the request has none)
    and which has exactly one of the keys [result] and [error]. *)
Theorem handle_request_envelope d s :
  registered (get_default "method" VNone d) = true ->
  binds (get_default "method" VNone d) (get_default "params" (VDict []) d)
  = true ->
  exists response s',
    handle_request env (VDict d) s = (Returns response, s')
    /\ field "id" response = Some (get_default "id" VNone d)
    /\ one_of_result_error response = true.
Proof.
  intros _ _. rewrite handle_request_dict.
  destruct (dispatch env _ _ s) as [[result | e] s'].
  - exists (success_response (get_default "jsonrpc" (VStr "2.0") d)
              (get_default "id" VNone d) result), s'.
    split; [reflexivity | apply success_response_shape].
  - eexists _, _. split; [reflexivity |].
    split; apply error_response_shape.
Qed.

(** C5.  For a request whose method is not one of the registered names,
    [handle_request] returns an error response with code -32603 and the
    message "Unknown method: <method>"; the wrapper (hence the engine
    handle) and the world are left as they were, and the trace gains the
    error log entry only: no handler ran and no collaborator was called. *)
Theorem unknown_method_rejected d s :
  registered (get_default "method" VNone d) = false ->
  exists response s',
    handle_request env (VDict d) s = (Returns response, s')
    /\ error_field "code" response = Some (VInt (-32603))
    /\ error_field "message" response
       = Some (VStr ("Unknown method: "
                     ++ str env (get_default "method" VNone d)))
    /\ has_field "result" response = false
    /\ self s' = self s
    /\ world s' = world s
    /\ stdout s' = stdout s
    /\ trace s'
       = (trace s
          ++ [ELog ERROR ("Error handling request: Unknown method: "
                          ++ str env (get_default "method" VNone d))])%list.
Proof.
  intros Hreg. eexists _, _.
  split; [apply (unknown_method_response _ _ Hreg) |].
  repeat split; reflexivity.
Qed.

(** C10.  For a request object without a "method" key, [handle_request]
    returns (it does not raise) an error response with code -32603, the
    message "Unknown method: None" and the request's [id], [None] when
    the request has none. *)
Theorem missing_method_rejected d s :
  has_key "method" d = false ->
  exists response s',
    handle_request env (VDict d) s = (Returns response, s')
    /\ error_field "code" response = Some (VInt (-32603))
    /\ error_field "message" response = Some (VStr "Unknown method: None")
    /\ field "id" response = Some (get_default "id" VNone d)
    /\ has_field "result" response = false.
Proof.
  intros Hkey.
  assert (Hmethod : get_default "method" VNone d = VNone).
  { unfold get_default. unfold has_key in Hkey.
    destruct (dict_get "method" d); [discriminate | reflexivity]. }
  assert (Hreg : registered (get_default "method" VNone d) = false)
    by (rewrite Hmethod; reflexivity).
  eexists _, _.
  split; [apply (unknown_method_response _ _ Hreg) |].
  rewrite Hmethod. repeat split; reflexivity.
Qed.

(** *** Keyword binding *)

Lemma first_undeclared_some sig keys :
  existsb (fun k => negb (declared sig k)) keys = true ->
  exists k, first_undeclared sig keys = Some k.
Proof.
  induction keys as [| k keys IH]; simpl; [discriminate |].
  destruct (declared sig k); simpl; eauto.
Qed.

Lemma bind_declared_missing sig kvs :
  lacks_required sig kvs = true ->
  exists err, bind_declared sig kvs = inl err.
Proof.
  unfold lacks_required, has_key.
  induction sig as [| [name default] sig IH]; simpl; [discriminate |].
  destruct (dict_get name kvs) as [v |]; destruct default as [dv |]; simpl;
    intros Hreq; eauto;
    destruct (IH Hreq) as [err ->]; eauto.
Qed.

Lemma check_kwargs_mismatched sig kvs :
  mismatched sig kvs = true ->
  exists err, check_kwargs sig (VDict kvs) = inl err.
Proof.
  unfold mismatched, has_undeclared, check_kwargs. intros Hmis.
  destruct (existsb _ (dict_keys kvs)) eqn:Hkeys.
  - destruct (first_undeclared_some _ _ Hkeys) as [k ->].
    destruct (String.eqb k "self"); eauto.
  - simpl in Hmis. destruct (first_undeclared sig (dict_keys kvs)) as [k |].
    + destruct (String.eqb k "self"); eauto.
    + apply bind_declared_missing. exact Hmis.
Qed.

(** A call that cannot bind raises before the body of the handler. *)
Lemma call_kw_mismatched name sig kvs body s :
  mismatched sig kvs = true ->
  exists msg, call_kw env name sig (VDict kvs) body s = (Raises (TypeError msg), s).
Proof.
  intros Hmis. destruct (check_kwargs_mismatched _ _ Hmis) as [err Herr].
  unfold call_kw, bind, of_outcome, bind_kwargs. rewrite Herr. eauto.
Qed.

Lemma table_get_cases name sig :
  table_get name method_table = Some sig ->
  takes_params name = true ->
  (name = "index_files" /\ sig = sig_index_files)
  \/ (name = "search_code" /\ sig = sig_search_code)
  \/ (name = "get_entity" /\ sig = sig_get_entity)
  \/ (name = "get_relationships" /\ sig = sig_get_relationships)
  \/ (name = "visualize_subgraph" /\ sig = sig_visualize_subgraph)
  \/ (name = "insert_text" /\ sig = sig_insert_text).
Proof.
  unfold takes_params, method_table, table_get.
  repeat match goal with
         | |- context [String.eqb name ?lit] =>
             destruct (String.eqb_spec name lit) as [-> | _]
         end; simpl; intros Hsig Htakes;
    try discriminate; injection Hsig as <-; tauto.
Qed.

Lemma dispatch_mismatched name sig kvs s :
  table_get name method_table = Some sig ->
  takes_params name = true ->
  mismatched sig kvs = true ->
  exists msg,
    dispatch env (VStr name) (VDict kvs) s = (Raises (TypeError msg), s).
Proof.
  intros Hsig Htakes Hmis.
  destruct (table_get_cases _ _ Hsig Htakes)
    as [[-> ->] | [[-> ->] | [[-> ->] | [[-> ->] | [[-> ->] | [-> ->]]]]]];
    apply call_kw_mismatched; exact Hmis.
Qed.

(** [ping] and [get_indexing_status] are called without the mapping. *)
Lemma params_not_passed params :
  dispatch env (VStr "ping") params = @ping W H
  /\ dispatch env (VStr "get_indexing_status") params = get_indexing_status env.
Proof. split; reflexivity. Qed.

(** C6, as the code has it.  For every registered method called with
    [**params] (all but ping and get_indexing_status) and every params
    mapping with a key the handler does not declare, or without a
    parameter the handler requires, [handle_request] returns an error
    response with code -32603 for the TypeError of the call, and the
    body of the handler does not run: the wrapper and the world are left
    as they were and the trace gains the error log entry only. *)
Theorem mismatched_params_rejected name sig d kvs s :
  get_default "method" VNone d = VStr name ->
  get_default "params" (VDict []) d = VDict kvs ->
  table_get name method_table = Some sig ->
  takes_params name = true ->
  mismatched sig kvs = true ->
  exists msg response s',
    handle_request env (VDict d) s = (Returns response, s')
    /\ response = error_response (get_default "jsonrpc" (VStr "2.0") d)
                    (get_default "id" VNone d) (TypeError msg)
    /\ error_field "code" response = Some (VInt (-32603))
    /\ has_field "result" response = false
    /\ self s' = self s
    /\ world s' = world s
    /\ stdout s' = stdout s
    /\ trace s' = (trace s ++ [ELog ERROR ("Error handling request: " ++ msg)])%list.
Proof.
  intros Hmethod Hparams Hsig Htakes Hmis.
  destruct (dispatch_mismatched name sig kvs s Hsig Htakes Hmis) as [msg Hd].
  exists msg. eexists _, _.
  rewrite handle_request_dict, Hmethod, Hparams, Hd.
  repeat split; reflexivity.
Qed.

(** *** insert_text *)

(** C9.  [insert_text] does not look at [metadata]: for the same text,
    any two values of [metadata] give the same outcome and the same final
    state (the same insertion call), called directly or through
    [dispatch], with the key present or absent. *)
Theorem metadata_ignored text metadata1 metadata2 s :
  insert_text env text metadata1 s = insert_text env text metadata2 s
  /\ dispatch env (VStr "insert_text")
       (VDict [("text", text); ("metadata", metadata1)]) s
     = insert_text env text metadata2 s
  /\ dispatch env (VStr "insert_text") (VDict [("text", text)]) s
     = insert_text env text metadata2 s.
Proof. repeat split; reflexivity. Qed.

(** C4, as the code has it.  [insert_text] raises only what
    [initialize] raises, before the insertion is attempted.  Once
    [initialize] has returned, it returns for every text: success=True
    and a message when the engine's insertion returns, success=False and
    the message "Error inserting text: <failure>" when it raises. *)
Theorem insert_text_outcome (text : string) metadata s :
  match initialize env s with
  | (Raises e, s1) => insert_text env (VStr text) metadata s = (Raises e, s1)
  | (Returns _, s1) =>
      let n := str_of_nat (String.length text) in
      let s2 :=
        add_event
          (ELog INFO ("Inserting text content (length: " ++ n ++ " chars)")) s1 in
      match rag_ainsert env (VStr text) s2 with
      | (Returns _, s3) =>
          insert_text env (VStr text) metadata s
          = (Returns (insert_result true
                        ("Successfully inserted " ++ n ++ " characters")), s3)
      | (Raises e, s3) =>
          insert_text env (VStr text) metadata s
          = (Returns (insert_result false
                        ("Error inserting text: " ++ exn_msg e)),
             add_event (ELog ERROR ("Error inserting text: " ++ exn_msg e)) s3)
      end
  end.
Proof.
  unfold insert_text, bind, of_outcome, try_except, logger, ret.
  destruct (initialize env s) as [[[] | e] s1]; [| reflexivity].
  cbn [len].
  destruct (rag_ainsert env (VStr text) _) as [[[] | e] s3]; reflexivity.
Qed.

(** *** index_files *)

Lemma checked_app (t1 t2 : list (event H)) :
  checked (t1 ++ t2) = (checked t1 ++ checked t2)%list.
Proof. apply flat_map_app. Qed.

Ltac solve_checked :=
  cbn [trace add_event set_world];
  rewrite !checked_app;
  cbn [checked flat_map app];
  rewrite ?app_nil_r;
  reflexivity.

(** One pass of the loop: the path is tested for existence, then either
    counted or reported; the pass never raises. *)
Lemma index_file_step file_path acc s :
  exists o s',
    index_file env file_path acc s = (Returns (tally acc o), s')
    /\ file_outcome env file_path o
    /\ checked (trace s') = (checked (trace s) ++ [file_path])%list.
Proof.
  destruct acc as [success_count errors].
  unfold index_file, rag_ainsert, try_except, bind, get_self, extern,
    raise, ret, logger.
  destruct (path_exists env file_path (world s)) as [[found | e] w1]; cbn.
  - destruct found; cbn.
    + destruct (read_file env file_path w1) as [[content | e] w2]; cbn.
      * destruct (rag (self s)) as [h |]; cbn.
        -- destruct (ainsert env h (VStr content) w2) as [[[] | e] w3]; cbn.
           ++ exists None. eexists. split; [reflexivity |].
              split; [constructor |].
              solve_checked.
           ++ exists (Some ("Error indexing " ++ str env file_path ++ ": "
                            ++ exn_msg e)).
              eexists. split; [reflexivity |]. split; [constructor |].
              solve_checked.
        -- exists (Some ("Error indexing " ++ str env file_path ++ ": "
                         ++ exn_msg (no_attribute "ainsert"))).
           eexists. split; [reflexivity |]. split; [constructor |].
           solve_checked.
      * exists (Some ("Error indexing " ++ str env file_path ++ ": "
                      ++ exn_msg e)).
        eexists. split; [reflexivity |]. split; [constructor |].
        solve_checked.
    + exists (Some ("File not found: " ++ str env file_path)).
      eexists. split; [reflexivity |]. split; [constructor |].
      solve_checked.
  - exists (Some ("Error indexing " ++ str env file_path ++ ": " ++ exn_msg e)).
    eexists. split; [reflexivity |]. split; [constructor |].
    solve_checked.
Qed.

(** The loop visits every item, whatever happened to the ones before. *)
Lemma for_each_index_file items :
  forall acc s,
  exists outcomes s',
    for_each (index_file env) items acc s
    = (Returns (fold_left tally outcomes acc), s')
    /\ Forall2 (file_outcome env) items outcomes
    /\ checked (trace s') = (checked (trace s) ++ items)%list.
Proof.
  induction items as [| file_path items IH]; intros acc s.
  - exists [], s. cbn. rewrite app_nil_r. repeat split. constructor.
  - destruct (index_file_step file_path acc s) as (o & s1 & Hstep & Ho & Hc1).
    destruct (IH (tally acc o) s1) as (outcomes & s' & Hloop & Hall & Hc).
    exists (o :: outcomes), s'. cbn [for_each fold_left]. unfold bind.
    rewrite Hstep. split; [exact Hloop |]. split; [constructor; assumption |].
    rewrite Hc, Hc1, <- app_assoc. reflexivity.
Qed.

Lemma successes_cons o outcomes :
  successes (o :: outcomes)
  = match o with None => 1 | Some _ => 0 end + successes outcomes.
Proof.
  unfold successes. destruct o; cbn [filter List.length]; lia.
Qed.

Lemma fold_tally outcomes :
  forall success_count errors,
    fold_left tally outcomes (success_count, errors)
    = (success_count + successes outcomes, (errors ++ messages outcomes)%list).
Proof.
  induction outcomes as [| o outcomes IH]; intros success_count errors.
  - cbn. rewrite app_nil_r. f_equal. unfold successes. cbn. lia.
  - cbn [fold_left]. rewrite successes_cons. destruct o as [m |]; cbn [tally fst snd].
    + rewrite IH. cbn. rewrite <- app_assoc. reflexivity.
    + rewrite IH. cbn [messages flat_map app]. f_equal. lia.
Qed.

Lemma successes_messages outcomes :
  successes outcomes + Z.of_nat (List.length (messages outcomes))
  = Z.of_nat (List.length outcomes).
Proof.
  induction outcomes as [| o outcomes IH].
  - reflexivity.
  - rewrite successes_cons. destruct o as [m |]; cbn [messages flat_map app List.length];
      fold (messages outcomes); lia.
Qed.

(** One pass of the loop does to the path what [fate_of] says, from the
    handle and the world of the state it starts in. *)
Lemma index_file_fate file_path acc s :
  exists s',
    index_file env file_path acc s
    = (Returns
         (tally acc
            (report env file_path
               (fst (fate_of env (rag (self s)) file_path (world s))))), s')
    /\ self s' = self s
    /\ world s' = snd (fate_of env (rag (self s)) file_path (world s))
    /\ checked (trace s') = (checked (trace s) ++ [file_path])%list.
Proof.
  destruct acc as [success_count errors].
  unfold index_file, rag_ainsert, try_except, bind, get_self, extern,
    raise, ret, logger, fate_of.
  destruct (path_exists env file_path (world s)) as [[found | e] w1]; cbn.
  - destruct found; cbn.
    + destruct (read_file env file_path w1) as [[content | e] w2]; cbn.
      * destruct (rag (self s)) as [h |]; cbn.
        -- destruct (ainsert env h (VStr content) w2) as [[[] | e] w3]; cbn;
             eexists; (split; [reflexivity |]); (split; [reflexivity |]);
             (split; [reflexivity |]); solve_checked.
        -- eexists. split; [reflexivity |]. split; [reflexivity |].
           split; [reflexivity |]. solve_checked.
      * eexists. split; [reflexivity |]. split; [reflexivity |].
        split; [reflexivity |]. solve_checked.
    + eexists. split; [reflexivity |]. split; [reflexivity |].
      split; [reflexivity |]. solve_checked.
  - eexists. split; [reflexivity |]. split; [reflexivity |].
    split; [reflexivity |]. solve_checked.
Qed.

(** The loop gives every path its fate, whatever happened to the paths
    before it. *)
Lemma for_each_fates items :
  forall acc s,
  exists s',
    for_each (index_file env) items acc s
    = (Returns
         (fold_left tally
            (reports env items (fates env (rag (self s)) items (world s)))
            acc), s')
    /\ self s' = self s
    /\ checked (trace s') = (checked (trace s) ++ items)%list.
Proof.
  induction items as [| file_path items IH]; intros acc s.
  - exists s. cbn. rewrite app_nil_r. repeat split.
  - destruct (index_file_fate file_path acc s) as (s1 & Hstep & Hself1 & Hworld1 & Hc1).
    destruct (IH (tally acc
                    (report env file_path
                       (fst (fate_of env (rag (self s)) file_path (world s)))))
                s1) as (s' & Hloop & Hself & Hc).
    exists s'. cbn [for_each fates reports fold_left]. unfold bind.
    rewrite Hstep, Hloop, Hself1, Hworld1.
    split; [reflexivity |]. split; [congruence |].
    rewrite Hc, Hc1, <- app_assoc. reflexivity.
Qed.

Lemma report_outcome path f : file_outcome env path (report env path f).
Proof. destruct f; constructor. Qed.

Lemma reports_outcomes handle items :
  forall w,
    Forall2 (file_outcome env) items
      (reports env items (fates env handle items w)).
Proof.
  induction items as [| path items IH]; intros w; cbn [fates reports];
    constructor; [apply report_outcome | apply IH].
Qed.

(** One message for each path that was not stored. *)
Lemma messages_failing handle items :
  forall w,
    List.length (messages (reports env items (fates env handle items w)))
    = failing (fates env handle items w).
Proof.
  induction items as [| path items IH]; intros w; [reflexivity |].
  cbn [fates reports]. unfold failing, messages in *. cbn [flat_map filter].
  destruct (fst (fate_of env handle path w));
    cbn [report app List.length]; rewrite ?IH; reflexivity.
Qed.

(** C3, as the code has it.  [index_files] raises only what
    [initialize] raises, before any path is looked at.  Once [initialize]
    has returned, it returns for every list of paths: every path is
    tested for existence, in order, whatever happened to the paths before
    it; a path is counted in success_count exactly when it exists, can be
    read and the engine accepts its content, and contributes one message
    to errors otherwise (missing file, failed test or read, failed
    insertion); and success_count + error_count = total, the length of
    the list. *)
Theorem index_files_outcome (paths : list string) s :
  match initialize env s with
  | (Raises e, s1) => index_files env (VList (map VStr paths)) s = (Raises e, s1)
  | (Returns _, s1) =>
      let fs := fates env (rag (self s1)) (map VStr paths) (world s1) in
      let outcomes := reports env (map VStr paths) fs in
      exists s',
        index_files env (VList (map VStr paths)) s
        = (Returns (index_result (successes outcomes) (messages outcomes)
                      (List.length paths)), s')
        /\ Forall2 (file_outcome env) (map VStr paths) outcomes
        /\ checked (trace s') = (checked (trace s1) ++ map VStr paths)%list
        /\ List.length (messages outcomes) = failing fs
        /\ successes outcomes + Z.of_nat (List.length (messages outcomes))
           = Z.of_nat (List.length paths)
  end.
Proof.
  unfold index_files, bind, of_outcome, logger, ret.
  destruct (initialize env s) as [[[] | e] s1]; [| reflexivity].
  cbn [len iter]. rewrite length_map.
  set (fs := fates env (rag (self s1)) (map VStr paths) (world s1)).
  set (outcomes := reports env (map VStr paths) fs).
  match goal with
  | |- context [for_each _ _ _ ?s2] =>
      destruct (for_each_fates (map VStr paths) (0, []) s2)
        as (s' & Hloop & Hself & Hc)
  end.
  cbn [self world add_event] in Hloop. fold fs in Hloop. fold outcomes in Hloop.
  rewrite Hloop, fold_tally. cbn [fst snd app].
  eexists. split; [reflexivity |].
  assert (Hall : Forall2 (file_outcome env) (map VStr paths) outcomes)
    by apply reports_outcomes.
  split; [exact Hall |].
  split.
  - cbn [trace add_event]. rewrite checked_app, Hc.
    cbn [trace add_event]. rewrite checked_app.
    cbn [checked flat_map app]. rewrite !app_nil_r. reflexivity.
  - split; [apply messages_failing |].
    rewrite successes_messages.
    rewrite <- (Forall2_length Hall), length_map. reflexivity.
Qed.

(** *** What the handlers leave untouched *)

Lemma unchanged_refl s : unchanged s s.
Proof. repeat split. Qed.

Lemma unchanged_trans s1 s2 s3 :
  unchanged s1 s2 -> unchanged s2 s3 -> unchanged s1 s3.
Proof.
  unfold unchanged. intros (? & ? & ? & ?) (? & ? & ? & ?).
  repeat split; congruence.
Qed.

Lemma constructions_snoc (t : list (event H)) ev :
  constructions (t ++ [ev])
  = (constructions t + if is_construction ev then 1 else 0)%nat.
Proof.
  unfold constructions. rewrite filter_app, length_app. cbn.
  destruct (is_construction ev); reflexivity.
Qed.

Lemma setup_runs_snoc (t : list (event H)) ev :
  setup_runs (t ++ [ev]) = (setup_runs t + if is_setup ev then 1 else 0)%nat.
Proof.
  unfold setup_runs. rewrite filter_app, length_app. cbn.
  destruct (is_setup ev); reflexivity.
Qed.

Lemma unchanged_add_event ev s :
  is_construction ev = false -> is_setup ev = false ->
  unchanged s (add_event ev s).
Proof.
  intros Hc Hs. unfold unchanged. cbn [add_event trace stdout self].
  rewrite constructions_snoc, setup_runs_snoc, Hc, Hs.
  repeat split; lia.
Qed.

Lemma quiet_ret A (a : A) : quiet (@ret W H A a).
Proof. intros s. apply unchanged_refl. Qed.

Lemma quiet_raise A e : quiet (@raise W H A e).
Proof. intros s. apply unchanged_refl. Qed.

Lemma quiet_of_outcome A (r : outcome A) : quiet (@of_outcome W H A r).
Proof. intros s. apply unchanged_refl. Qed.

Lemma quiet_get_self : quiet (@get_self W H).
Proof. intros s. apply unchanged_refl. Qed.

Lemma quiet_logger lvl msg :
  is_setup (@ELog H lvl msg) = false -> quiet (@logger W H lvl msg).
Proof. intros Hs s. apply unchanged_add_event; [reflexivity | exact Hs]. Qed.

Lemma quiet_extern A (c : call H) (f : W -> outcome A * W) :
  (forall ok, is_construction (ECall c ok) = false) -> quiet (extern c f).
Proof.
  intros Hc s. unfold extern. destruct (f (world s)) as [r w'].
  cbn [snd].
  apply (unchanged_trans s (set_world w' s)); [repeat split |].
  apply unchanged_add_event; [apply Hc | reflexivity].
Qed.

Lemma quiet_bind A B (m : M W H A) (k : A -> M W H B) :
  quiet m -> (forall a, quiet (k a)) -> quiet (bind m k).
Proof.
  intros Hm Hk s. unfold bind. specialize (Hm s).
  destruct (m s) as [[a | e] s1]; cbn [snd] in *; [| exact Hm].
  apply (unchanged_trans s s1); [exact Hm | apply Hk].
Qed.

Lemma quiet_try_except A (body : M W H A) handler :
  quiet body -> (forall e, quiet (handler e)) -> quiet (try_except body handler).
Proof.
  intros Hm Hk s. unfold try_except. specialize (Hm s).
  destruct (body s) as [[a | e] s1]; cbn [snd] in *; [exact Hm |].
  apply (unchanged_trans s s1); [exact Hm | apply Hk].
Qed.

Lemma quiet_try_except_ImportError A (body handler : M W H A) :
  quiet body -> quiet handler -> quiet (try_except_ImportError body handler).
Proof.
  intros Hm Hk s. unfold try_except_ImportError. specialize (Hm s).
  destruct (body s) as [[a | e] s1]; cbn [snd] in *; [exact Hm |].
  destruct (exn_is_import_error e); [| exact Hm].
  apply (unchanged_trans s s1); [exact Hm | apply Hk].
Qed.

Lemma quiet_for_each A B (body : A -> B -> M W H B) items :
  (forall x acc, quiet (body x acc)) ->
  forall acc, quiet (for_each body items acc).
Proof.
  intros Hbody. induction items as [| x items IH]; intros acc; cbn [for_each].
  - apply quiet_ret.
  - apply quiet_bind; [apply Hbody | exact IH].
Qed.

(** Decomposes a goal [quiet m] along the structure of [m]. *)
Ltac quiet_step :=
  match goal with
  | |- quiet (bind _ _) => apply quiet_bind; [| intros]
  | |- quiet (try_except _ _) => apply quiet_try_except; [| intros]
  | |- quiet (try_except_ImportError _ _) => apply quiet_try_except_ImportError
  | |- quiet (ret _) => apply quiet_ret
  | |- quiet (raise _) => apply quiet_raise
  | |- quiet (of_outcome _) => apply quiet_of_outcome
  | |- quiet (@get_self _ _) => apply quiet_get_self
  | |- quiet (logger _ _) => apply quiet_logger; reflexivity
  | |- quiet (extern _ _) => apply quiet_extern; intros; reflexivity
  | |- quiet (for_each _ _ _) => apply quiet_for_each; intros
  | |- quiet (when ?b _) => unfold when; destruct b
  | |- quiet (if ?b then _ else _) => destruct b
  | |- quiet (match ?x with _ => _ end) => destruct x
  end.

Ltac quiet_tac := repeat quiet_step.

Lemma quiet_rag_ainsert content : quiet (rag_ainsert env content).
Proof. unfold rag_ainsert. quiet_tac. Qed.

Lemma quiet_rag_aquery query kw : quiet (rag_aquery env query kw).
Proof. unfold rag_aquery. quiet_tac. Qed.

Lemma quiet_index_file file_path acc : quiet (index_file env file_path acc).
Proof. unfold index_file. quiet_tac; apply quiet_rag_ainsert. Qed.

Lemma quiet_configure_graph_storage me : quiet (configure_graph_storage env me).
Proof. unfold configure_graph_storage. quiet_tac. Qed.

Lemma quiet_configure_vector_storage me : quiet (configure_vector_storage env me).
Proof. unfold configure_vector_storage. quiet_tac. Qed.

(** *** initialize *)

(** On an initialised wrapper [initialize] returns at once. *)
Lemma initialize_noop s :
  _initialized (self s) = true -> initialize env s = (Returns tt, s).
Proof.
  intros Hi. unfold initialize, bind, get_self. rewrite Hi. reflexivity.
Qed.

(** On a wrapper that is not initialised, [initialize] runs the set-up
    once; it sets the handle and the flag exactly when the constructor
    returns, and constructs nothing otherwise. *)
Lemma initialize_cases s r s' :
  _initialized (self s) = false ->
  initialize env s = (r, s') ->
  stdout s' = stdout s
  /\ setup_runs (trace s') = S (setup_runs (trace s))
  /\ match r with
     | Returns _ =>
         (exists h, self s' = set_initialized (set_rag h (self s)))
         /\ constructions (trace s') = S (constructions (trace s))
     | Raises _ =>
         self s' = self s
         /\ constructions (trace s') = constructions (trace s)
     end.
Proof.
  intros Hi. unfold initialize, bind, get_self. rewrite Hi.
  unfold logger at 1.
  set (s0 := add_event (ELog INFO setup_message) s).
  assert (H0 : stdout s0 = stdout s /\ self s0 = self s
               /\ constructions (trace s0) = constructions (trace s)
               /\ setup_runs (trace s0) = S (setup_runs (trace s))).
  { subst s0. cbn [add_event stdout self trace].
    rewrite constructions_snoc, setup_runs_snoc. cbn. repeat split; lia. }
  destruct H0 as (Ho0 & Hs0 & Hc0 & Hr0).
  pose proof (quiet_configure_graph_storage (self s) s0) as Hg.
  destruct (configure_graph_storage env (self s) s0) as [[g | e] s1];
    cbn [snd] in Hg; destruct Hg as (Ho1 & Hs1 & Hc1 & Hr1).
  2: { intros [= <- <-]. repeat split; congruence. }
  pose proof (quiet_configure_vector_storage (self s) s1) as Hv.
  destruct (configure_vector_storage env (self s) s1) as [[v | e] s2];
    cbn [snd] in Hv; destruct Hv as (Ho2 & Hs2 & Hc2 & Hr2).
  2: { intros [= <- <-]. repeat split; congruence. }
  unfold extern.
  destruct (LightRAG env _ (world s2)) as [[h | e] w3].
  - cbn [assign logger add_event set_self set_world stdout self trace returned].
    intros [= <- <-].
    cbn [add_event set_self set_world stdout self trace].
    rewrite !constructions_snoc, !setup_runs_snoc. cbn.
    split; [congruence |]. split; [lia |].
    split; [exists h; congruence | lia].
  - intros [= <- <-].
    cbn [add_event set_world stdout self trace returned].
    rewrite !constructions_snoc, !setup_runs_snoc. cbn.
    repeat split; try congruence; lia.
Qed.

Lemma safe_of_quiet A (m : M W H A) : quiet m -> safe m.
Proof.
  intros Hq s. destruct (Hq s) as (Ho & Hs & Hc & Hr).
  split; [exact Ho |]. split; [| intros _; exact (Hq s)].
  unfold consistent. rewrite Hs, Hc. trivial.
Qed.

Lemma safe_bind A B (m : M W H A) (k : A -> M W H B) :
  safe m -> (forall a, safe (k a)) -> safe (bind m k).
Proof.
  intros Hm Hk s. unfold bind. destruct (Hm s) as (Ho & Hcons & Hun).
  destruct (m s) as [[a | e] s1]; cbn [snd] in *; [| auto].
  destruct (Hk a s1) as (Ho' & Hcons' & Hun').
  split; [congruence |]. split; [auto |].
  intros Hi. apply (unchanged_trans s s1); [auto |].
  apply Hun'. destruct (Hun Hi) as (_ & -> & _). exact Hi.
Qed.

Lemma safe_try_except A (body : M W H A) handler :
  safe body -> (forall e, safe (handler e)) -> safe (try_except body handler).
Proof.
  intros Hm Hk s. unfold try_except. destruct (Hm s) as (Ho & Hcons & Hun).
  destruct (body s) as [[a | e] s1]; cbn [snd] in *; [auto |].
  destruct (Hk e s1) as (Ho' & Hcons' & Hun').
  split; [congruence |]. split; [auto |].
  intros Hi. apply (unchanged_trans s s1); [auto |].
  apply Hun'. destruct (Hun Hi) as (_ & -> & _). exact Hi.
Qed.

Lemma safe_initialize : safe (initialize env).
Proof.
  intros s. destruct (_initialized (self s)) eqn:Hi.
  - rewrite (initialize_noop s Hi). cbn [snd].
    repeat split; auto.
  - destruct (initialize env s) as [r s'] eqn:Hrun. cbn [snd].
    destruct (initialize_cases s r s' Hi Hrun) as (Ho & _ & Hcase).
    split; [exact Ho |]. split; [| discriminate].
    unfold consistent. rewrite Hi. intros Hzero.
    destruct r.
    + destruct Hcase as ((h & ->) & ->). cbn. split; [discriminate | lia].
    + destruct Hcase as (-> & ->). rewrite Hi. exact Hzero.
Qed.

(** *** The handlers *)

Ltac quiet_all :=
  repeat first
    [ quiet_step
    | apply quiet_rag_ainsert
    | apply quiet_rag_aquery
    | apply quiet_index_file
    | progress cbv zeta ].

(** A handler is [initialize] followed by a quiet body. *)
Ltac safe_handler :=
  apply safe_bind;
  [ apply safe_initialize | intros; apply safe_of_quiet; quiet_all ].

Lemma safe_index_files file_paths : safe (index_files env file_paths).
Proof. unfold index_files. safe_handler. Qed.

Lemma safe_insert_text text metadata : safe (insert_text env text metadata).
Proof. unfold insert_text. safe_handler. Qed.

Lemma safe_search_code q m k oc rt t1 t2 t3 hl ll :
  safe (search_code env q m k oc rt t1 t2 t3 hl ll).
Proof. unfold search_code. safe_handler. Qed.

Lemma safe_get_entity entity_name : safe (get_entity env entity_name).
Proof. unfold get_entity. safe_handler. Qed.

Lemma safe_get_relationships entity_name relation_type depth :
  safe (get_relationships env entity_name relation_type depth).
Proof. unfold get_relationships. safe_handler. Qed.

Lemma safe_visualize_subgraph query format max_nodes :
  safe (visualize_subgraph env query format max_nodes).
Proof. unfold visualize_subgraph. safe_handler. Qed.

Lemma safe_get_indexing_status : safe (get_indexing_status env).
Proof. unfold get_indexing_status. safe_handler. Qed.

Lemma safe_call_kw name sig params body :
  (forall args, safe (body args)) -> safe (call_kw env name sig params body).
Proof.
  intros Hbody. unfold call_kw.
  apply safe_bind; [apply safe_of_quiet, quiet_of_outcome | exact Hbody].
Qed.

Lemma safe_dispatch method params : safe (dispatch env method params).
Proof.
  unfold dispatch.
  repeat match goal with
         | |- safe (if ?b then _ else _) => destruct b
         end;
    try (apply safe_call_kw; intros);
    first [ apply safe_index_files | apply safe_search_code
          | apply safe_get_entity | apply safe_get_relationships
          | apply safe_visualize_subgraph | apply safe_get_indexing_status
          | apply safe_insert_text
          | apply safe_of_quiet; unfold ping; quiet_all ].
Qed.

Lemma quiet_request_get request key default :
  quiet (@request_get W H request key default).
Proof. unfold request_get. quiet_all. Qed.

Lemma safe_handle_request request : safe (handle_request env request).
Proof.
  unfold handle_request.
  repeat (apply safe_bind; [apply safe_of_quiet, quiet_request_get | intros]).
  apply safe_try_except.
  - apply safe_bind; [apply safe_dispatch | intros; apply safe_of_quiet; quiet_all].
  - intros e. apply safe_of_quiet. quiet_all.
Qed.

Lemma safe_exec o s :
  stdout (exec env o s) = stdout s
  /\ (consistent s -> consistent (exec env o s))
  /\ (_initialized (self s) = true -> unchanged s (exec env o s)).
Proof.
  destruct o as [| request]; cbn [exec];
    [apply safe_initialize | apply safe_handle_request].
Qed.

Lemma consistent_exec_all ops :
  forall s, consistent s -> consistent (exec_all env ops s).
Proof.
  induction ops as [| o ops IH]; intros s Hs; cbn; [exact Hs |].
  apply IH. apply safe_exec. exact Hs.
Qed.

Lemma unchanged_exec_all ops :
  forall s, _initialized (self s) = true -> unchanged s (exec_all env ops s).
Proof.
  induction ops as [| o ops IH]; intros s Hi; cbn; [apply unchanged_refl |].
  destruct (safe_exec o s) as (_ & _ & Hun). specialize (Hun Hi).
  apply (unchanged_trans s (exec env o s)); [exact Hun |].
  apply IH. destruct Hun as (_ & -> & _). exact Hi.
Qed.

Lemma fresh_consistent s : fresh s -> consistent s.
Proof. intros (_ & Hi & Hc). unfold consistent. rewrite Hi. exact Hc. Qed.

Lemma consistent_bound s : consistent s -> (constructions (trace s) <= 1)%nat.
Proof.
  unfold consistent. destruct (_initialized (self s)); [intros (_ & ->) | intros ->]; lia.
Qed.

(** After a call of [initialize] that returns, the flag is set. *)
Lemma initialize_sets_flag s :
  succeeds (initialize env) s = true ->
  _initialized (self (snd (initialize env s))) = true
  /\ (setup_runs (trace (snd (initialize env s))) <= S (setup_runs (trace s)))%nat.
Proof.
  unfold succeeds. destruct (_initialized (self s)) eqn:Hi.
  - rewrite (initialize_noop s Hi). cbn. split; [exact Hi | lia].
  - destruct (initialize env s) as [r s'] eqn:Hrun. cbn [fst snd].
    destruct (initialize_cases s r s' Hi Hrun) as (_ & Hr & Hcase).
    destruct r; [| discriminate]. intros _.
    destruct Hcase as ((h & ->) & _). split; [reflexivity | lia].
Qed.

(** C7, as the code has it.  From a wrapper on which no initialisation
    has succeeded, after any sequence of calls (of [initialize] itself or
    of requests to any handler): at most one engine handle has been
    constructed; and once a call of [initialize] has returned, the handle
    is not None, exactly one handle has been constructed, and every later
    call leaves the wrapper's attributes as they are, constructs nothing
    and does not run the set-up again ([initialize] returns at once). *)
Theorem initialize_idempotent ops s :
  fresh s ->
  (constructions (trace (exec_all env ops s)) <= 1)%nat
  /\ (succeeds (initialize env) (exec_all env ops s) = true ->
      let s1 := snd (initialize env (exec_all env ops s)) in
      rag (self s1) <> None
      /\ constructions (trace s1) = 1%nat
      /\ (setup_runs (trace s1)
          <= S (setup_runs (trace (exec_all env ops s))))%nat
      /\ forall more,
           let s2 := exec_all env more s1 in
           self s2 = self s1
           /\ constructions (trace s2) = 1%nat
           /\ setup_runs (trace s2) = setup_runs (trace s1)
           /\ initialize env s2 = (Returns tt, s2)).
Proof.
  intros Hfresh.
  pose proof (consistent_exec_all ops s (fresh_consistent s Hfresh)) as Hcons.
  split; [apply consistent_bound; exact Hcons |].
  intros Hok s1.
  destruct (initialize_sets_flag _ Hok) as (Hflag & Hruns). fold s1 in Hflag, Hruns.
  assert (Hcons1 : consistent s1) by (apply safe_initialize; exact Hcons).
  assert (Hone : rag (self s1) <> None /\ constructions (trace s1) = 1%nat).
  { unfold consistent in Hcons1. rewrite Hflag in Hcons1. exact Hcons1. }
  destruct Hone as (Hrag & Hone).
  split; [exact Hrag |]. split; [exact Hone |]. split; [exact Hruns |].
  intros more s2.
  destruct (unchanged_exec_all more s1 Hflag) as (_ & Hself & Hc & Hr).
  fold s2 in Hself, Hc, Hr.
  split; [exact Hself |]. split; [congruence |]. split; [exact Hr |].
  apply initialize_noop. rewrite Hself. exact Hflag.
Qed.

(** *** The transport loop *)

Lemma not_blank_not_eof line : is_blank line = false -> String.eqb line "" = false.
Proof.
  intros Hb. destruct (String.eqb_spec line "") as [-> | _];
    [discriminate | reflexivity].
Qed.

(** After a line that is not blank the loop goes on to the next line. *)
Lemma run_loop_cons line rest s :
  is_blank line = false ->
  run_loop env (line :: rest) s = run_loop env rest (run_line env line s).
Proof.
  intros Hb. cbn [run_loop]. rewrite (not_blank_not_eof line Hb). reflexivity.
Qed.

Lemma handle_request_dict_returns d s :
  exists response s',
    handle_request env (VDict d) s = (Returns response, s')
    /\ stdout s' = stdout s.
Proof.
  pose proof (safe_handle_request (VDict d) s) as (Ho & _).
  rewrite handle_request_dict in Ho |- *.
  destruct (dispatch env _ _ s) as [[result | e] s1]; eauto.
Qed.

End Properties.

(* ================================================================== *)
(** ** The properties on the sample environment *)
(* ================================================================== *)

(** The envelope of the response to a ping request. *)
Lemma handle_request_envelope_witness :
  registered (get_default "method" VNone Scenario.ping_request) = true
  /\ binds (get_default "method" VNone Scenario.ping_request)
       (get_default "params" (VDict []) Scenario.ping_request) = true
  /\ exists response s',
       handle_request Sample.env (VDict Scenario.ping_request) Scenario.working
       = (Returns response, s')
       /\ field "id" response = Some (VInt 1)
       /\ one_of_result_error response = true.
Proof.
  split; [reflexivity |]. split; [reflexivity |].
  apply (handle_request_envelope Sample.World nat Sample.env
           Scenario.ping_request Scenario.working); reflexivity.
Defined.

(** The method [delete_everything] is refused and the wrapper is left
    as it was. *)
Lemma unknown_method_rejected_witness :
  registered (get_default "method" VNone Scenario.unknown_request) = false
  /\ exists response s',
       handle_request Sample.env (VDict Scenario.unknown_request) Scenario.working
       = (Returns response, s')
       /\ error_field "code" response = Some (VInt (-32603))
       /\ error_field "message" response
          = Some (VStr "Unknown method: delete_everything")
       /\ self s' = self Scenario.working.
Proof.
  split; [reflexivity |].
  destruct (unknown_method_rejected Sample.World nat Sample.env
              Scenario.unknown_request Scenario.working)
    as (response & s' & Hrun & Hcode & Hmsg & _ & Hself & _);
    [reflexivity |].
  exists response, s'. repeat split; assumption.
Defined.

(** A request with [jsonrpc] and [id] only. *)
Lemma missing_method_rejected_witness :
  has_key "method" Scenario.no_method_request = false
  /\ exists response s',
       handle_request Sample.env (VDict Scenario.no_method_request) Scenario.working
       = (Returns response, s')
       /\ error_field "code" response = Some (VInt (-32603))
       /\ error_field "message" response = Some (VStr "Unknown method: None")
       /\ field "id" response = Some (VInt 3)
       /\ has_field "result" response = false.
Proof.
  split; [reflexivity |].
  apply (missing_method_rejected Sample.World nat Sample.env
           Scenario.no_method_request Scenario.working); reflexivity.
Defined.

(** [get_entity] called with a key it does not declare. *)
Lemma mismatched_params_rejected_witness :
  table_get "get_entity" method_table = Some sig_get_entity
  /\ takes_params "get_entity" = true
  /\ mismatched sig_get_entity
       [ ("entity_name", VStr "Foo"); ("verbose", VBool true) ] = true
  /\ exists msg response s',
       handle_request Sample.env (VDict Scenario.extra_key_request) Scenario.working
       = (Returns response, s')
       /\ error_field "code" response = Some (VInt (-32603))
       /\ has_field "result" response = false
       /\ self s' = self Scenario.working
       /\ world s' = world Scenario.working
       /\ trace s'
          = (trace Scenario.working
             ++ [ELog ERROR ("Error handling request: " ++ msg)])%list.
Proof.
  split; [reflexivity |]. split; [reflexivity |]. split; [reflexivity |].
  destruct (mismatched_params_rejected Sample.World nat Sample.env
              "get_entity" sig_get_entity Scenario.extra_key_request
              [ ("entity_name", VStr "Foo"); ("verbose", VBool true) ]
              Scenario.working)
    as (msg & response & s' & Hrun & _ & Hcode & Hres & Hself & Hworld & _ & Htrace);
    try reflexivity.
  exists msg, response, s'. repeat split; assumption.
Defined.

(** C6 as stated fails on ping: a key that ping does not declare is
    ignored, and the response is a result. *)
Lemma ping_ignores_params :
  table_get "ping" method_table = Some []
  /\ mismatched [] [ ("verbose", VBool true) ] = true
  /\ handle_request Sample.env (VDict Scenario.ping_with_params) Scenario.working
     = (Returns (success_response (VStr "2.0") (VInt 5) (VStr "pong")),
        Scenario.working).
Proof. repeat split; reflexivity. Qed.

(** C4 as stated fails when the engine cannot be constructed:
    [insert_text] raises what [initialize] raises. *)
Lemma insert_text_raises :
  fst (insert_text Sample.env (VStr "hello") VNone Scenario.broken)
  = Raises (ValueError "storage backend is not reachable").
Proof. reflexivity. Qed.

(** C3 as stated fails when the engine cannot be constructed:
    [index_files] raises what [initialize] raises. *)
Lemma index_files_raises :
  fst (index_files Sample.env (VList (map VStr ["a.txt"])) Scenario.broken)
  = Raises (ValueError "storage backend is not reachable").
Proof. reflexivity. Qed.

(** Two calls of [initialize] around two requests, on a working engine. *)
Lemma initialize_idempotent_witness :
  fresh Scenario.working
  /\ (constructions
        (trace (exec_all Sample.env Scenario.calls Scenario.working)) <= 1)%nat
  /\ succeeds (initialize Sample.env)
       (exec_all Sample.env Scenario.calls Scenario.working) = true
  /\ rag (self (snd (initialize Sample.env
                       (exec_all Sample.env Scenario.calls Scenario.working))))
     <> None.
Proof.
  assert (Hfresh : fresh Scenario.working) by (repeat split; reflexivity).
  split; [exact Hfresh |].
  destruct (initialize_idempotent Sample.World nat Sample.env
              Scenario.calls Scenario.working Hfresh) as [Hbound Hafter].
  split; [exact Hbound |].
  split; [reflexivity |].
  exact (proj1 (Hafter eq_refl)).
Defined.

(** C7 as stated fails when the constructor raises: the flag stays
    unset, and the second call runs the set-up (the import of the graph
    backend, then the constructor) again. *)
Lemma setup_runs_twice :
  fresh Scenario.broken
  /\ setup_runs
       (trace (exec_all Sample.env [Initialize; Initialize] Scenario.broken))
     = 2%nat
  /\ List.length
       (filter (fun ev => match ev with
                          | ECall (CImport _) _ => true
                          | _ => false
                          end)
          (trace (exec_all Sample.env [Initialize; Initialize] Scenario.broken)))
     = 2%nat
  /\ constructions
       (trace (exec_all Sample.env [Initialize; Initialize] Scenario.broken))
     = 0%nat.
Proof. repeat split; reflexivity. Qed.

(** C2.  On the line [42], valid JSON that is not an object, the loop
    writes nothing: [handle_request] raises AttributeError at its first
    [request.get], before its [try], and the loop only logs it.  The ping
    that follows is answered, so the caller sees one frame for two
    lines. *)
Theorem number_line_gets_no_frame :
  is_blank Scenario.line_number = false
  /\ json_loads Sample.env (strip Scenario.line_number) = Loaded (VInt 42)
  /\ stdout (run Sample.env [Scenario.line_number; Scenario.line_ping]
               Scenario.working)
     = [ (Sample.dumps (success_response (VStr "2.0") (VInt 7) (VStr "pong"))
          ++ nl)%string ]
  /\ In (ELog ERROR "Unexpected error: 'int' object has no attribute 'get'")
       (trace (run Sample.env [Scenario.line_number; Scenario.line_ping]
                 Scenario.working)).
Proof.
  split; [reflexivity |]. split; [reflexivity |]. split; [reflexivity |].
  vm_compute. right. left. reflexivity.
Qed.

(** C8.  On a truncated line, an unclosed array that starts with an
    integer literal of 4301 digits, [json.loads] raises ValueError while
    it converts the literal, which is not a JSONDecodeError: the loop
    only logs it and writes no parse-error frame.  The truncated frame
    that follows gets its parse-error frame, so the caller sees one
    frame for two lines that cannot be decoded. *)
Theorem truncated_digits_line_gets_no_frame :
  is_blank Cases.line_truncated_digits = false
  /\ json_loads Sample.env (strip Cases.line_truncated_digits)
     = LoadFailure (JsonText.digit_limit_error 4301)
  /\ stdout (run Sample.env [Cases.line_truncated_digits; Scenario.line_truncated]
               Scenario.working)
     = [ (Sample.dumps (parse_error_response "Expecting value") ++ nl)%string ]
  /\ In (ELog ERROR ("Unexpected error: "
                     ++ exn_msg (JsonText.digit_limit_error 4301)))
       (trace (run Sample.env
                 [Cases.line_truncated_digits; Scenario.line_truncated]
                 Scenario.working)).
Proof.
  split; [vm_compute; reflexivity |].
  split; [vm_compute; reflexivity |].
  split; [vm_compute; reflexivity |].
  vm_compute. right. left. reflexivity.
Qed.

(* ================================================================== *)
(** ** Runs on the sample environment *)
(* ================================================================== *)

Example strip_frame : strip ("  {} " ++ nl) = "{}".
Proof. reflexivity. Qed.

Example embedding_dim_by_model :
  arg_embedding_dim (lightrag_args Scenario.wrapper []) = 3072
  /\ contains "text-embedding-3" "text-embedding-ada-002" = false.
Proof. split; reflexivity. Qed.

(** [ping] answers without initialising the engine. *)
Example ping_without_engine :
  handle_request Sample.env (VDict Scenario.ping_request) Scenario.working
  = (Returns (success_response (VStr "2.0") (VInt 1) (VStr "pong")),
     Scenario.working).
Proof. reflexivity. Qed.

Example index_missing_file :
  fst (index_files Sample.env (VList [VStr "missing.txt"]) Scenario.working)
  = Returns (index_result 0 [VStr "File not found: missing.txt"] 1).
Proof. reflexivity. Qed.

Example index_two_files :
  fst (index_files Sample.env (VList [VStr "a.txt"; VStr "b.txt"])
         Scenario.working)
  = Returns (index_result 1 [VStr "File not found: b.txt"] 2).
Proof. reflexivity. Qed.

(** The engine of the sample environment refuses empty content. *)
Example insert_empty_text :
  fst (insert_text Sample.env (VStr "") VNone Scenario.working)
  = Returns (insert_result false "Error inserting text: empty content").
Proof. reflexivity. Qed.

Example status_after_insert :
  fst (get_indexing_status Sample.env
         (snd (insert_text Sample.env (VStr "hello") VNone Scenario.working)))
  = Returns
      (VDict [ ("initialized", VBool true);
               ("working_dir", VStr "/tmp/test-lightrag");
               ("working_dir_size_bytes", VInt 4096);
               ("storage_backends",
                VDict [ ("milvus", VStr "NanoVectorDB");
                        ("neo4j", VStr "neo4j://localhost:7687") ]) ]).
Proof. reflexivity. Qed.

(** A failure of [search_code] reaches the caller as an error response. *)
Example search_on_broken_engine :
  fst (handle_request Sample.env
         (VDict (Scenario.request 9 "search_code" [ ("query", VStr "q") ]))
         Scenario.broken)
  = Returns (error_response (VStr "2.0") (VInt 9)
               (ValueError "storage backend is not reachable")).
Proof. reflexivity. Qed.

(** Four frames: a ping, a number, a blank line, a truncated object.
    Two lines are written. *)
Example session :
  stdout (run Sample.env
            [ Scenario.line_ping; Scenario.line_number; "   " ++ nl;
              Scenario.line_truncated ]
            Scenario.working)
  = [ (Sample.dumps (success_response (VStr "2.0") (VInt 7) (VStr "pong"))
       ++ nl)%string;
      (Sample.dumps (parse_error_response "Expecting value") ++ nl)%string ].
Proof. reflexivity. Qed.

(* ================================================================== *)
(** ** Further properties of the wrapper *)
(* ================================================================== *)

Section Further.

Variables W H : Type.
Variable env : Env W H.

Implicit Types (s : State W H) (d : dict).

(** *** The dispatcher *)

(** X1.  A ping request is answered with "pong" whatever its params are
    and whatever state the wrapper is in, and nothing changes: the engine
    is not initialised, no collaborator is called, nothing is logged. *)
Theorem ping_leaves_state d s :
  get_default "method" VNone d = VStr "ping" ->
  handle_request env (VDict d) s
  = (Returns (success_response (get_default "jsonrpc" (VStr "2.0") d)
                (get_default "id" VNone d) (VStr "pong")), s).
Proof.
  intros Hmethod. rewrite handle_request_dict, Hmethod. reflexivity.
Qed.

(** X2.  [handle_request] reads four keys of the request and no other:
    two request objects with the same values (or the same absence) under
    jsonrpc, id, method and params get the same response and leave the
    same state, whatever else they hold.  The value under jsonrpc is
    echoed, never checked. *)
Theorem request_read_through_four_keys d1 d2 s :
  dict_get "jsonrpc" d1 = dict_get "jsonrpc" d2 ->
  dict_get "id" d1 = dict_get "id" d2 ->
  dict_get "method" d1 = dict_get "method" d2 ->
  dict_get "params" d1 = dict_get "params" d2 ->
  handle_request env (VDict d1) s = handle_request env (VDict d2) s
  /\ exists response s',
       handle_request env (VDict d1) s = (Returns response, s')
       /\ field "jsonrpc" response
          = Some (get_default "jsonrpc" (VStr "2.0") d1).
Proof.
  intros Hj Hi Hm Hp. rewrite !handle_request_dict. unfold get_default.
  rewrite Hj, Hi, Hm, Hp.
  split; [reflexivity |].
  destruct (dispatch env _ _ s) as [[result | e] s']; eexists _, _;
    split; reflexivity.
Qed.

Lemma check_kwargs_not_mapping sig params :
  is_mapping params = false -> check_kwargs sig params = inl (NotAMapping params).
Proof. destruct params; try reflexivity. discriminate. Qed.

Lemma dispatch_not_mapping name sig params s :
  table_get name method_table = Some sig ->
  takes_params name = true ->
  is_mapping params = false ->
  exists msg, dispatch env (VStr name) params s = (Raises (TypeError msg), s).
Proof.
  intros Hsig Htakes Hmap.
  destruct (table_get_cases name sig Hsig Htakes)
    as [[-> ->] | [[-> ->] | [[-> ->] | [[-> ->] | [[-> ->] | [-> ->]]]]]];
    cbn [dispatch eq_str String.eqb Ascii.eqb Bool.eqb];
    unfold call_kw, bind, of_outcome, bind_kwargs;
    rewrite (check_kwargs_not_mapping _ params Hmap); eauto.
Qed.

(** X3.  For the six methods called with [**params], a params value that
    is not an object (null, a list, a string, a number) is refused with
    an error response of code -32603 for the TypeError of the call; the
    handler does not run: the wrapper and the world are as before and the
    trace gains the error log entry only. *)
Theorem non_mapping_params_rejected name sig d params s :
  get_default "method" VNone d = VStr name ->
  get_default "params" (VDict []) d = params ->
  table_get name method_table = Some sig ->
  takes_params name = true ->
  is_mapping params = false ->
  exists msg,
    handle_request env (VDict d) s
    = (Returns (error_response (get_default "jsonrpc" (VStr "2.0") d)
                  (get_default "id" VNone d) (TypeError msg)),
       add_event (ELog ERROR ("Error handling request: " ++ msg)) s).
Proof.
  intros Hmethod Hparams Hsig Htakes Hmap.
  destruct (dispatch_not_mapping name sig params s Hsig Htakes Hmap) as [msg Hd].
  exists msg. rewrite handle_request_dict, Hmethod, Hparams, Hd. reflexivity.
Qed.

(** X4.  No handler writes to standard output: whatever the request, the
    lines written so far are the same after [handle_request].  Only the
    loop of [run] writes frames. *)
Theorem handle_request_keeps_stdout request s :
  stdout (snd (handle_request env request s)) = stdout s.
Proof.
  destruct (safe_handle_request W H env request s) as (Hout & _). exact Hout.
Qed.

(** *** insert_text *)

(** X5.  When [text] is an object without a length (None, a boolean, a
    number), [insert_text] raises the TypeError of [len(text)] as soon as
    [initialize] has returned: the failure is not turned into a
    success=False result, and the engine's insertion is not called. *)
Theorem insert_text_unsized text metadata s :
  returned (len text) = false ->
  match initialize env s with
  | (Raises e, s1) => insert_text env text metadata s = (Raises e, s1)
  | (Returns _, s1) =>
      insert_text env text metadata s
      = (Raises (TypeError ("object of type '" ++ type_name text
                            ++ "' has no len()")), s1)
  end.
Proof.
  intros Hlen. unfold insert_text, bind, of_outcome.
  destruct (initialize env s) as [[[] | e] s1]; [| reflexivity].
  destruct text; try discriminate; reflexivity.
Qed.

(** *** The query handlers *)

Lemma initialize_ready h s : ready h s -> initialize env s = (Returns tt, s).
Proof. intros (Hflag & _). apply initialize_noop. exact Hflag. Qed.

Lemma engine_calls_app (t1 t2 : list (event H)) :
  engine_calls (t1 ++ t2) = (engine_calls t1 ++ engine_calls t2)%list.
Proof. apply flat_map_app. Qed.

Ltac solve_engine_calls :=
  cbn [trace add_event set_world set_self];
  rewrite ?engine_calls_app;
  cbn [engine_calls flat_map app];
  rewrite ?app_nil_r;
  reflexivity.

(** [search_code] with the dict of parameters named. *)
Lemma search_code_eq query mode top_k only_context response_type
    t1 t2 t3 hl_keywords ll_keywords :
  search_code env query mode top_k only_context response_type
    t1 t2 t3 hl_keywords ll_keywords
  = bind (initialize env) (fun _ =>
    bind (logger INFO ("Searching: query='" ++ str env query ++ "', mode="
                       ++ str env mode ++ ", top_k=" ++ str env top_k)) (fun _ =>
    bind (when (truthy hl_keywords)
            (logger INFO ("High-level keywords: " ++ str env hl_keywords))) (fun _ =>
    bind (when (truthy ll_keywords)
            (logger INFO ("Low-level keywords: " ++ str env ll_keywords))) (fun _ =>
    try_except
      (bind (rag_aquery env query
               (search_query_params mode only_context top_k response_type
                  t1 t2 t3 hl_keywords ll_keywords))
         (fun result =>
            ret (VDict [ ("answer", VStr result); ("query", query);
                         ("mode", mode); ("top_k", top_k) ])))
      (fun e => bind (logger ERROR ("Search error: " ++ exn_msg e))
                  (fun _ => raise e)))))).
Proof. reflexivity. Qed.

(** X6.  On an initialised wrapper [search_code] makes one engine call,
    the query with the parameters of [search_query_params].  When the
    engine answers, the result is {answer, query, mode, top_k} with the
    arguments echoed; when the engine raises, [search_code] raises the
    same exception after logging it: the failure is not absorbed. *)
Theorem search_code_outcome h query mode top_k only_context response_type
    t1 t2 t3 hl_keywords ll_keywords s :
  ready h s ->
  exists s',
    snd (search_code env query mode top_k only_context response_type
           t1 t2 t3 hl_keywords ll_keywords s) = s'
    /\ self s' = self s
    /\ world s'
       = snd (aquery env h query
                (search_query_params mode only_context top_k response_type
                   t1 t2 t3 hl_keywords ll_keywords) (world s))
    /\ engine_calls (trace s')
       = (engine_calls (trace s)
          ++ [CAquery h query
                (search_query_params mode only_context top_k response_type
                   t1 t2 t3 hl_keywords ll_keywords)])%list
    /\ match fst (aquery env h query
                    (search_query_params mode only_context top_k response_type
                       t1 t2 t3 hl_keywords ll_keywords) (world s)) with
       | Returns answer =>
           fst (search_code env query mode top_k only_context response_type
                  t1 t2 t3 hl_keywords ll_keywords s)
           = Returns (VDict [ ("answer", VStr answer); ("query", query);
                              ("mode", mode); ("top_k", top_k) ])
       | Raises e =>
           fst (search_code env query mode top_k only_context response_type
                  t1 t2 t3 hl_keywords ll_keywords s)
           = Raises e
           /\ In (ELog ERROR ("Search error: " ++ exn_msg e)) (trace s')
       end.
Proof.
  intros Hready. pose proof Hready as (Hflag & Hrag).
  eexists. split; [reflexivity |].
  rewrite !search_code_eq.
  generalize (search_query_params mode only_context top_k response_type
                t1 t2 t3 hl_keywords ll_keywords) as kw.
  intros kw.
  unfold rag_aquery, when, try_except, bind. rewrite (initialize_ready h s Hready).
  unfold get_self, extern, logger, raise, ret.
  destruct (truthy hl_keywords); destruct (truthy ll_keywords);
    cbn [fst snd self world add_event set_world]; rewrite Hrag;
    cbn [fst snd self world add_event set_world];
    destruct (aquery env h query kw (world s)) as [[answer | e] w'];
    cbn [fst snd self world add_event set_world returned];
    (split; [reflexivity |]); (split; [reflexivity |]);
    (split; [solve_engine_calls |]);
    try reflexivity;
    (split; [reflexivity |]);
    cbn [trace add_event set_world]; apply in_or_app; right; left; reflexivity.
Qed.

(** X7.  A keyword filter that is falsy (None, an empty list, an empty
    string, 0, False) counts as absent, each filter on its own:
    [search_code] behaves exactly (result, log, engine call, final state)
    as if None had been passed in place of every falsy hl_keywords or
    ll_keywords, whatever the other filter is. *)
Theorem falsy_keywords_as_absent query mode top_k only_context response_type
    t1 t2 t3 hl_keywords ll_keywords s :
  search_code env query mode top_k only_context response_type t1 t2 t3
    hl_keywords ll_keywords s
  = search_code env query mode top_k only_context response_type t1 t2 t3
      (if truthy hl_keywords then hl_keywords else VNone)
      (if truthy ll_keywords then ll_keywords else VNone) s.
Proof.
  unfold search_code, when.
  destruct (truthy hl_keywords) eqn:Hhl; destruct (truthy ll_keywords) eqn:Hll;
    cbn [truthy]; rewrite ?Hhl, ?Hll; reflexivity.
Qed.

(** X8.  Whenever [get_relationships] returns, its result echoes
    entity_name and depth, and its relation_type is the argument when
    that is truthy and "all" otherwise (None and the empty string alike). *)
Theorem get_relationships_result entity_name relation_type depth s result s' :
  get_relationships env entity_name relation_type depth s = (Returns result, s') ->
  field "entity_name" result = Some entity_name
  /\ field "depth" result = Some depth
  /\ field "relation_type" result
     = Some (if truthy relation_type then relation_type else VStr "all")
  /\ has_field "relationships" result = true.
Proof.
  unfold get_relationships, rag_aquery, bind, logger, get_self, extern, raise, ret.
  destruct (initialize env s) as [[[] | e] s1]; [| discriminate].
  cbn [fst snd self world add_event set_world].
  destruct (rag (self s1)) as [h |]; [| discriminate].
  match goal with
  | |- context [aquery env h ?q ?kw ?w] =>
      destruct (aquery env h q kw w) as [[answer | e] w']
  end; [| discriminate].
  intros [= <- <-]. repeat split; reflexivity.
Qed.

Lemma take_substring n : forall text, take n text = String.substring 0 n text.
Proof.
  induction n as [| n IH]; intros [| c text]; cbn; try reflexivity.
  now rewrite IH.
Qed.

Lemma take_length n :
  forall text, String.length (take n text) = Nat.min n (String.length text).
Proof.
  induction n as [| n IH]; intros [| c text]; cbn; try reflexivity.
  now rewrite IH.
Qed.

Lemma take_prefix n : forall text, String.prefix (take n text) text = true.
Proof.
  induction n as [| n IH]; intros [| c text]; cbn; try reflexivity.
  destruct (ascii_dec c c) as [_ | Hneq]; [apply IH | now elim Hneq].
Qed.

(** X9.  [visualize_subgraph] raises what [initialize] raises; after
    that it asks the engine one question, with top_k = max_nodes, and
    raises what the engine raises.  When the engine answers, query,
    format and max_nodes are echoed and the diagram is the fixed two-node
    graph around str(query) and the first 100 characters of the answer
    (the whole answer when it is shorter). *)
Theorem visualize_subgraph_result query format max_nodes s :
  (match initialize env s with
   | (Raises e, s1) =>
       visualize_subgraph env query format max_nodes s = (Raises e, s1)
   | (Returns _, s1) =>
       match rag (self s1) with
       | None =>
           fst (visualize_subgraph env query format max_nodes s)
           = Raises (no_attribute "aquery")
       | Some h =>
           match
             fst (aquery env h
                    (VStr (str env query
                           ++ ". List all entities and their relationships."))
                    [ ("mode", VStr "hybrid"); ("top_k", max_nodes) ]
                    (world s1))
           with
           | Returns answer =>
               fst (visualize_subgraph env query format max_nodes s)
               = Returns
                   (VDict [ ("query", query);
                            ("format", format);
                            ("diagram",
                             VStr (render_diagram (str env query)
                                     (String.substring 0 100 answer)));
                            ("max_nodes", max_nodes) ])
           | Raises e =>
               fst (visualize_subgraph env query format max_nodes s) = Raises e
           end
       end
   end)
  /\ (forall answer,
        String.length (String.substring 0 100 answer)
        = Nat.min 100 (String.length answer)
        /\ String.prefix (String.substring 0 100 answer) answer = true).
Proof.
  split.
  - unfold visualize_subgraph, rag_aquery, bind, logger, get_self, extern, raise, ret.
    destruct (initialize env s) as [[[] | e] s1]; [| reflexivity].
    cbn [fst snd self world add_event set_world].
    destruct (rag (self s1)) as [h |]; [| reflexivity].
    cbn [fst snd self world add_event set_world].
    match goal with
    | |- context [aquery env h ?q ?kw ?w] =>
        destruct (aquery env h q kw w) as [[answer | e] w']
    end; cbn [fst snd]; [| reflexivity].
    rewrite <- take_substring. reflexivity.
  - intros answer. rewrite <- take_substring. split;
      [apply take_length | apply take_prefix].
Qed.

(** X10.  The [format] argument of [visualize_subgraph] is echoed and
    otherwise ignored: two calls that differ in [format] only make the
    same engine call, leave the same wrapper and world, and either raise
    the same exception or return the same diagram. *)
Theorem visualize_subgraph_ignores_format query format1 format2 max_nodes s :
  self (snd (visualize_subgraph env query format1 max_nodes s))
  = self (snd (visualize_subgraph env query format2 max_nodes s))
  /\ world (snd (visualize_subgraph env query format1 max_nodes s))
     = world (snd (visualize_subgraph env query format2 max_nodes s))
  /\ engine_calls (trace (snd (visualize_subgraph env query format1 max_nodes s)))
     = engine_calls (trace (snd (visualize_subgraph env query format2 max_nodes s)))
  /\ match fst (visualize_subgraph env query format1 max_nodes s),
           fst (visualize_subgraph env query format2 max_nodes s) with
     | Returns result1, Returns result2 =>
         field "diagram" result1 = field "diagram" result2
     | Raises e1, Raises e2 => e1 = e2
     | _, _ => False
     end.
Proof.
  unfold visualize_subgraph, rag_aquery, bind, logger, get_self, extern, raise, ret.
  destruct (initialize env s) as [[[] | e] s1]; [| repeat split].
  cbn [fst snd self world add_event set_world].
  destruct (rag (self s1)) as [h |].
  - cbn [fst snd self world add_event set_world].
    match goal with
    | |- context [aquery env h ?q ?kw ?w] =>
        destruct (aquery env h q kw w) as [[answer | e] w']
    end; cbn [fst snd self world add_event set_world returned];
      (split; [reflexivity |]); (split; [reflexivity |]);
      (split; [| reflexivity]);
      cbn [trace add_event set_world]; rewrite !engine_calls_app;
      cbn [engine_calls flat_map app]; rewrite !app_nil_r; reflexivity.
  - cbn [fst snd self world]. repeat split.
    cbn [trace add_event]. rewrite !engine_calls_app. reflexivity.
Qed.

(** X21.  On an initialised wrapper [get_entity] makes one engine call:
    a fixed question around the entity name, in local mode, context only,
    top_k 10.  When the engine answers, the result is {entity_name,
    description, search_mode: "local"}; when it raises, [get_entity]
    raises the same exception. *)
Theorem get_entity_outcome h entity_name s :
  ready h s ->
  let question :=
    VStr ("Describe the entity '" ++ str env entity_name
          ++ "' in detail. Include its purpose, methods, and usage.") in
  let kw := [ ("mode", VStr "local"); ("only_need_context", VBool true);
              ("top_k", VInt 10) ] in
  self (snd (get_entity env entity_name s)) = self s
  /\ engine_calls (trace (snd (get_entity env entity_name s)))
     = (engine_calls (trace s) ++ [CAquery h question kw])%list
  /\ match fst (aquery env h question kw (world s)) with
     | Returns answer =>
         fst (get_entity env entity_name s)
         = Returns (VDict [ ("entity_name", entity_name);
                            ("description", VStr answer);
                            ("search_mode", VStr "local") ])
     | Raises e => fst (get_entity env entity_name s) = Raises e
     end.
Proof.
  intros Hready question kw. pose proof Hready as (Hflag & Hrag).
  unfold get_entity, rag_aquery, bind. rewrite (initialize_ready h s Hready).
  unfold get_self, extern, logger, raise, ret.
  cbn [fst snd self world add_event set_world]. rewrite Hrag.
  cbn [fst snd self world add_event set_world].
  fold question. fold kw.
  destruct (aquery env h question kw (world s)) as [[answer | e] w'];
    cbn [fst snd self world add_event set_world returned];
    (split; [reflexivity |]); (split; [solve_engine_calls | reflexivity]).
Qed.

(** *** The configuration *)

Lemma same_configuration_refl s : same_configuration s s.
Proof. reflexivity. Qed.

Lemma same_configuration_trans s1 s2 s3 :
  same_configuration s1 s2 -> same_configuration s2 s3 ->
  same_configuration s1 s3.
Proof. unfold same_configuration. congruence. Qed.

Lemma same_configuration_self s s' : self s' = self s -> same_configuration s s'.
Proof. unfold same_configuration. intros ->. reflexivity. Qed.

(** [initialize] assigns the handle and the flag, nothing else; when it
    returns the flag is set. *)
Lemma initialize_effect s r s' :
  initialize env s = (r, s') ->
  same_configuration s s'
  /\ (returned r = true -> _initialized (self s') = true).
Proof.
  intros Hrun. destruct (_initialized (self s)) eqn:Hflag.
  - rewrite (initialize_noop W H env s Hflag) in Hrun.
    injection Hrun as <- <-. split; [reflexivity | intros _; exact Hflag].
  - destruct (initialize_cases W H env s r s' Hflag Hrun) as (_ & _ & Hcase).
    destruct r as [[] | e].
    + destruct Hcase as ((h & Hself) & _).
      unfold same_configuration. rewrite Hself. split; reflexivity.
    + destruct Hcase as (Hself & _).
      split; [apply same_configuration_self; exact Hself | discriminate].
Qed.

Lemma respects_bind A B (m : M W H A) (k : A -> M W H B) :
  respects (@same_configuration W H) m ->
  (forall a, respects (@same_configuration W H) (k a)) ->
  respects (@same_configuration W H) (bind m k).
Proof.
  intros Hm Hk s. unfold bind. specialize (Hm s).
  destruct (m s) as [[a | e] s1]; cbn [snd] in *; [| exact Hm].
  apply (same_configuration_trans s s1); [exact Hm | apply Hk].
Qed.

Lemma respects_try_except A (body : M W H A) handler :
  respects (@same_configuration W H) body ->
  (forall e, respects (@same_configuration W H) (handler e)) ->
  respects (@same_configuration W H) (try_except body handler).
Proof.
  intros Hm Hk s. unfold try_except. specialize (Hm s).
  destruct (body s) as [[a | e] s1]; cbn [snd] in *; [exact Hm |].
  apply (same_configuration_trans s s1); [exact Hm | apply Hk].
Qed.

Lemma respects_quiet A (m : M W H A) :
  quiet m -> respects (@same_configuration W H) m.
Proof.
  intros Hq s. destruct (Hq s) as (_ & Hself & _).
  apply same_configuration_self. exact Hself.
Qed.

Lemma respects_initialize : respects (@same_configuration W H) (initialize env).
Proof.
  intros s. destruct (initialize env s) as [r s'] eqn:Hrun.
  apply (initialize_effect s r s' Hrun).
Qed.

(** Decomposes a goal [quiet m] along the structure of [m]. *)
Ltac hush_step :=
  match goal with
  | |- quiet (bind _ _) => apply quiet_bind; [| intros]
  | |- quiet (try_except _ _) => apply quiet_try_except; [| intros]
  | |- quiet (ret _) => apply quiet_ret
  | |- quiet (raise _) => apply quiet_raise
  | |- quiet (of_outcome _) => apply quiet_of_outcome
  | |- quiet (@get_self _ _) => apply quiet_get_self
  | |- quiet (logger _ _) => apply quiet_logger; reflexivity
  | |- quiet (extern _ _) => apply quiet_extern; intros; reflexivity
  | |- quiet (for_each _ _ _) => apply quiet_for_each; intros
  | |- quiet (rag_ainsert _ _) => apply quiet_rag_ainsert
  | |- quiet (rag_aquery _ _ _) => apply quiet_rag_aquery
  | |- quiet (index_file _ _ _) => apply quiet_index_file
  | |- quiet (when ?b _) => unfold when; destruct b
  | |- quiet (if ?b then _ else _) => destruct b
  | |- quiet (match ?x with _ => _ end) => destruct x
  | |- quiet _ => progress cbv zeta
  end.

(** A handler is [initialize] followed by a quiet body. *)
Ltac respects_handler :=
  apply respects_bind;
  [ apply respects_initialize
  | intros; apply respects_quiet; repeat hush_step ].

Lemma respects_dispatch method params :
  respects (@same_configuration W H) (dispatch env method params).
Proof.
  unfold dispatch, call_kw.
  repeat match goal with
         | |- respects _ (if ?b then _ else _) => destruct b
         end;
    try (apply respects_bind;
         [apply respects_quiet, quiet_of_outcome | intros]);
    first [ unfold index_files; respects_handler
          | unfold search_code; respects_handler
          | unfold get_entity; respects_handler
          | unfold get_relationships; respects_handler
          | unfold visualize_subgraph; respects_handler
          | unfold get_indexing_status; respects_handler
          | unfold insert_text; respects_handler
          | apply respects_quiet; unfold ping; repeat hush_step ].
Qed.

Lemma respects_handle_request request :
  respects (@same_configuration W H) (handle_request env request).
Proof.
  unfold handle_request.
  repeat (apply respects_bind;
          [apply respects_quiet, quiet_request_get | intros]).
  apply respects_try_except.
  - apply respects_bind;
      [apply respects_dispatch | intros; apply respects_quiet; repeat hush_step].
  - intros e. apply respects_quiet. repeat hush_step.
Qed.

Lemma same_configuration_run_line line s :
  same_configuration s (run_line env line s).
Proof.
  unfold run_line. destruct (String.eqb (strip line) ""); [reflexivity |].
  destruct (json_loads env (strip line)) as [request | msg | e];
    [| reflexivity | reflexivity].
  pose proof (respects_handle_request request s) as Hr.
  destruct (handle_request env request s) as [[response | e] s']; exact Hr.
Qed.

Lemma same_configuration_run_loop stdin :
  forall s, same_configuration s (run_loop env stdin s).
Proof.
  induction stdin as [| line rest IH]; intros s; cbn [run_loop];
    [reflexivity |].
  destruct (String.eqb line ""); [reflexivity |].
  apply (same_configuration_trans s (run_line env line s));
    [apply same_configuration_run_line | apply IH].
Qed.

Lemma same_configuration_exec_all ops :
  forall s, same_configuration s (exec_all env ops s).
Proof.
  induction ops as [| o ops IH]; intros s; cbn; [reflexivity |].
  apply (same_configuration_trans s (exec env o s)); [| apply IH].
  destruct o as [| request]; cbn [exec];
    [apply respects_initialize | apply respects_handle_request].
Qed.

(** X11.  The configuration of a wrapper (working directory, key, base
    URL, model names, storage endpoints and credentials) is never
    modified: it is the same after any sequence of calls of [initialize]
    and of requests, and after a whole run of the loop. *)
Theorem configuration_read_only s :
  (forall ops,
     configuration (self (exec_all env ops s)) = configuration (self s))
  /\ (forall stdin,
        configuration (self (run env stdin s)) = configuration (self s)).
Proof.
  split.
  - intros ops. apply same_configuration_exec_all.
  - intros stdin. unfold run.
    apply (same_configuration_run_loop stdin
             (add_event
                (ELog INFO "LightRAG wrapper ready, listening on stdin...") s)).
Qed.

(** X12.  Whenever [get_indexing_status] returns, it reports
    initialized: True (it has just initialised the wrapper if it was
    not), and it reports the storage endpoints of the configuration, or
    "NanoVectorDB" and "NetworkX" when they are absent or empty: what is
    reported does not depend on whether a backend module could be
    imported. *)
Theorem get_indexing_status_result s result s' :
  get_indexing_status env s = (Returns result, s') ->
  field "initialized" result = Some (VBool true)
  /\ field "working_dir" result = Some (VStr (working_dir (self s)))
  /\ field "storage_backends" result
     = Some (VDict [ ("milvus",
                      VStr (or_default (milvus_address (self s)) "NanoVectorDB"));
                     ("neo4j",
                      VStr (or_default (neo4j_uri (self s)) "NetworkX")) ])
  /\ has_field "working_dir_size_bytes" result = true.
Proof.
  unfold get_indexing_status, bind, logger, get_self, extern, ret.
  destruct (initialize env s) as [[[] | e] s1] eqn:Hrun; [| discriminate].
  destruct (initialize_effect s _ s1 Hrun) as (Hconf & Hflag).
  specialize (Hflag eq_refl).
  cbn [fst snd self world add_event set_world].
  destruct (dir_size env (working_dir (self s1)) (world s1)) as [[size | e] w'];
    [| discriminate].
  intros [= <- <-]. rewrite Hflag.
  unfold same_configuration, configuration in Hconf.
  injection Hconf as Hwd _ _ _ _ Hmilvus Hneo _ _.
  rewrite Hwd, Hmilvus, Hneo. repeat split; reflexivity.
Qed.

(** *** Construction and initialisation *)

Lemma or_default_nonempty o default :
  default <> "" -> or_default o default <> "".
Proof.
  intros Hd. unfold or_default. destruct o as [text |]; [| exact Hd].
  destruct (String.eqb_spec text ""); assumption.
Qed.

(** X13.  The constructor raises exactly what creating the working
    directory raises.  Otherwise the new wrapper holds no engine handle,
    is not initialised, has constructed and set up nothing and written
    nothing; its log shows the working directory as it was given, its
    working_dir is the normalised text of that argument, and
    its neo4j_username is "neo4j" when the argument is None or empty and
    the argument otherwise. *)
Theorem init_outcome wd key url model embedding milvus uri user password w :
  match mkdir env (path_str env wd) w with
  | (Raises e, _) =>
      __init__ env wd key url model embedding milvus uri user password w
      = Raises e
  | (Returns _, w') =>
      exists s,
        __init__ env wd key url model embedding milvus uri user password w
        = Returns s
        /\ fresh s
        /\ setup_runs (trace s) = 0%nat
        /\ world s = w'
        /\ stdout s = []
        /\ trace s
           = [ ECall (CMkdir (path_str env wd)) true;
               ELog INFO ("LightRAGWrapper initialized with working_dir=" ++ wd);
               ELog INFO ("Storage: Milvus=" ++ str_opt milvus
                          ++ ", Neo4J=" ++ str_opt uri) ]
        /\ working_dir (self s) = path_str env wd
        /\ neo4j_username (self s)
           = match user with
             | None => "neo4j"
             | Some "" => "neo4j"
             | Some name => name
             end
        /\ configuration (self s)
           = (path_str env wd, key, url, model, embedding, milvus, uri,
              neo4j_username (self s), password)
  end.
Proof.
  unfold __init__.
  destruct (mkdir env (path_str env wd) w) as [[[] | e] w']; [| reflexivity].
  eexists. split; [reflexivity |].
  split; [repeat split |]. split; [reflexivity |].
  split; [reflexivity |]. split; [reflexivity |]. split; [reflexivity |].
  split; [reflexivity |]. split; [| reflexivity].
  cbn [self neo4j_username]. unfold or_default.
  destruct user as [[| c name] |]; reflexivity.
Qed.

(** X14.  When the graph backend is configured but its module raises an
    ImportError, [initialize] does not fail: it logs the fallback warning
    and constructs the engine with no storage arguments (no vector
    endpoint being configured), and the wrapper ends up initialised with
    the handle the constructor returned. *)
Theorem initialize_falls_back s e w1 h w2 :
  _initialized (self s) = false ->
  truthy_opt (neo4j_uri (self s)) && truthy_opt (neo4j_password (self s)) = true ->
  truthy_opt (milvus_address (self s)) = false ->
  import_module env neo4j_module (world s) = (Raises e, w1) ->
  exn_is_import_error e = true ->
  LightRAG env (lightrag_args (self s) []) w1 = (Returns h, w2) ->
  fst (initialize env s) = Returns tt
  /\ rag (self (snd (initialize env s))) = Some h
  /\ _initialized (self (snd (initialize env s))) = true
  /\ world (snd (initialize env s)) = w2
  /\ In (ELog WARNING "Neo4J libraries not available, falling back to NetworkX")
       (trace (snd (initialize env s)))
  /\ In (ECall (CLightRAG (lightrag_args (self s) [])) true)
       (trace (snd (initialize env s))).
Proof.
  intros Hflag Hgraph Hvector Himport Hkind Hnew.
  unfold initialize, configure_graph_storage, configure_vector_storage,
    try_except_ImportError, bind, get_self, extern, logger, assign, ret.
  rewrite Hflag. cbn [fst snd self world add_event set_world].
  rewrite Hgraph. cbn [fst snd self world add_event set_world].
  rewrite Himport. cbn [fst snd self world add_event set_world returned].
  rewrite Hkind. cbn [fst snd self world add_event set_world].
  rewrite Hvector. cbn [fst snd self world add_event set_world app].
  rewrite Hnew.
  cbn [fst snd self world trace add_event set_world set_self set_rag
         set_initialized rag _initialized returned].
  repeat split; try reflexivity; rewrite !in_app_iff; cbn [In]; tauto.
Qed.

(** X15.  A graph endpoint without a password (or a password without an
    endpoint) selects nothing: with no vector endpoint either,
    [initialize] imports no backend module and calls the constructor
    once, with no storage arguments. *)
Theorem initialize_default_backends s :
  _initialized (self s) = false ->
  truthy_opt (neo4j_uri (self s)) && truthy_opt (neo4j_password (self s)) = false ->
  truthy_opt (milvus_address (self s)) = false ->
  exists ok,
    returned (fst (initialize env s)) = ok
    /\ trace (snd (initialize env s))
       = (trace s
          ++ [ ELog INFO setup_message;
               ECall (CLightRAG (lightrag_args (self s) [])) ok ]
          ++ (if ok then [ELog INFO "LightRAG initialized successfully"] else []))%list.
Proof.
  intros Hflag Hgraph Hvector.
  unfold initialize, configure_graph_storage, configure_vector_storage,
    bind, get_self, extern, logger, assign, ret.
  rewrite Hflag. cbn [fst snd self world add_event set_world].
  rewrite Hgraph, Hvector. cbn [fst snd self world add_event set_world app].
  destruct (LightRAG env (lightrag_args (self s) []) (world s)) as [[h | e] w'];
    cbn [fst snd trace add_event set_world set_self returned];
    eexists; (split; [reflexivity |]);
    rewrite <- ?app_assoc; reflexivity.
Qed.

(** *** index_files and the engine *)

Lemma accepted_snoc (t : list (event H)) ev :
  accepted (t ++ [ev])
  = (accepted t + match ev with
                  | ECall (CAinsert _ _) true => 1
                  | _ => 0
                  end)%nat.
Proof.
  unfold accepted. rewrite filter_app, length_app. cbn [filter].
  destruct ev as [lvl msg | [] []]; reflexivity.
Qed.

Ltac solve_accepted :=
  cbn [trace add_event set_world];
  rewrite !accepted_snoc;
  cbn;
  lia.

(** A pass of the loop counts a path exactly when the engine accepted
    its content. *)
Lemma index_file_accepts file_path acc s :
  exists o s',
    index_file env file_path acc s = (Returns (tally acc o), s')
    /\ Z.of_nat (accepted (trace s'))
       = Z.of_nat (accepted (trace s)) + successes [o].
Proof.
  destruct acc as [success_count errors].
  unfold index_file, rag_ainsert, try_except, bind, get_self, extern,
    raise, ret, logger.
  destruct (path_exists env file_path (world s)) as [[found | e] w1]; cbn.
  - destruct found; cbn.
    + destruct (read_file env file_path w1) as [[content | e] w2]; cbn.
      * destruct (rag (self s)) as [h |]; cbn.
        -- destruct (ainsert env h (VStr content) w2) as [[[] | e] w3]; cbn.
           ++ exists None. eexists. split; [reflexivity | solve_accepted].
           ++ eexists (Some _). eexists. split; [reflexivity | solve_accepted].
        -- eexists (Some _). eexists. split; [reflexivity | solve_accepted].
      * eexists (Some _). eexists. split; [reflexivity | solve_accepted].
    + eexists (Some _). eexists. split; [reflexivity | solve_accepted].
  - eexists (Some _). eexists. split; [reflexivity | solve_accepted].
Qed.

Lemma for_each_accepts items :
  forall acc s,
  exists outcomes s',
    for_each (index_file env) items acc s
    = (Returns (fold_left tally outcomes acc), s')
    /\ Z.of_nat (accepted (trace s'))
       = Z.of_nat (accepted (trace s)) + successes outcomes.
Proof.
  induction items as [| file_path items IH]; intros acc s.
  - exists [], s. split; [reflexivity |]. unfold successes. cbn. lia.
  - destruct (index_file_accepts file_path acc s) as (o & s1 & Hstep & Hc1).
    destruct (IH (tally acc o) s1) as (outcomes & s' & Hloop & Hc).
    exists (o :: outcomes), s'. cbn [for_each fold_left]. unfold bind.
    rewrite Hstep. split; [exact Hloop |].
    rewrite Hc, Hc1, (successes_cons o outcomes), (successes_cons o []).
    change (successes []) with 0. destruct o; lia.
Qed.

(** X22.  The success_count that [index_files] reports is the number of
    insertions the engine accepted during the call: a file is counted
    exactly when its content was handed to the engine and the engine
    returned. *)
Theorem index_files_counts_insertions items s :
  match initialize env s with
  | (Raises e, s1) => index_files env (VList items) s = (Raises e, s1)
  | (Returns _, s1) =>
      exists result s',
        index_files env (VList items) s = (Returns result, s')
        /\ field "success_count" result
           = Some (VInt (Z.of_nat (accepted (trace s'))
                         - Z.of_nat (accepted (trace s1))))
        /\ field "total" result = Some (VInt (Z.of_nat (List.length items)))
  end.
Proof.
  unfold index_files, bind, of_outcome, logger, ret.
  destruct (initialize env s) as [[[] | e] s1]; [| reflexivity].
  cbn [len iter].
  match goal with
  | |- context [for_each _ _ _ ?s2] =>
      destruct (for_each_accepts items (0, []) s2)
        as (outcomes & s' & Hloop & Hc)
  end.
  rewrite Hloop, fold_tally. cbn [fst snd app].
  eexists _, _. split; [reflexivity |]. split; [| reflexivity].
  cbn [field index_result dict_get String.eqb Ascii.eqb Bool.eqb].
  do 2 f_equal.
  cbn [trace add_event] in Hc |- *. rewrite !accepted_snoc in Hc |- *.
  cbn in Hc |- *. lia.
Qed.

(** *** The transport loop and the entry point *)

(** X16.  A line of white space only (not the end of the stream) is
    skipped: nothing is written, logged or called, the state is exactly
    as before, and the loop reads the next line. *)
Theorem blank_line_skipped line rest s :
  String.eqb line "" = false ->
  is_blank line = true ->
  run_line env line s = s
  /\ run_loop env (line :: rest) s = run_loop env rest s.
Proof.
  intros Heof Hblank.
  assert (Hline : run_line env line s = s).
  { unfold run_line. unfold is_blank in Hblank. rewrite Hblank. reflexivity. }
  split; [exact Hline |].
  cbn [run_loop]. rewrite Heof, Hline. reflexivity.
Qed.

Lemma run_line_stdout line s :
  exists out,
    stdout (run_line env line s) = (stdout s ++ out)%list
    /\ List.length out = (if answered env line then 1 else 0)%nat
    /\ Forall framed out.
Proof.
  unfold run_line, answered, is_blank.
  destruct (String.eqb (strip line) "").
  { exists []. rewrite app_nil_r. repeat split. constructor. }
  cbn [negb andb].
  destruct (json_loads env (strip line)) as [request | msg | e].
  2: { eexists [_]. split; [reflexivity |]. split; [reflexivity |].
       repeat constructor. eexists. reflexivity. }
  2: { exists []. rewrite app_nil_r. repeat split. constructor. }
  destruct request as [| b | z | r | t | items | d];
    try (exists []; rewrite app_nil_r; repeat split; constructor).
  destruct (handle_request_dict_returns W H env d s) as (response & s' & Hh & Ho).
  rewrite Hh. cbn [write stdout is_mapping]. rewrite Ho.
  eexists [_]. split; [reflexivity |]. split; [reflexivity |].
  repeat constructor. eexists. reflexivity.
Qed.

Lemma run_loop_stdout stdin :
  forall s,
  exists out,
    stdout (run_loop env stdin s) = (stdout s ++ out)%list
    /\ List.length out = List.length (filter (answered env) (frames stdin))
    /\ Forall framed out.
Proof.
  induction stdin as [| line rest IH]; intros s; cbn [run_loop frames].
  { exists []. cbn. rewrite app_nil_r. repeat split. constructor. }
  destruct (String.eqb line "").
  { exists []. cbn. rewrite app_nil_r. repeat split. constructor. }
  destruct (run_line_stdout line s) as (out1 & Hout1 & Hlen1 & Hf1).
  destruct (IH (run_line env line s)) as (out2 & Hout2 & Hlen2 & Hf2).
  exists (out1 ++ out2)%list. rewrite Hout2, Hout1, <- app_assoc.
  split; [reflexivity |]. split.
  - rewrite length_app, Hlen1, Hlen2. cbn [filter].
    destruct (answered env line); reflexivity.
  - apply Forall_app. split; assumption.
Qed.

(** X17.  [run] only appends to standard output, one newline-terminated
    frame for each line read before the end of the stream that is not
    blank and either cannot be decoded or decodes to an object; blank
    lines, other JSON values and everything after the end of the stream
    add nothing. *)
Theorem run_output stdin s :
  exists out,
    stdout (run env stdin s) = (stdout s ++ out)%list
    /\ List.length out = List.length (filter (answered env) (frames stdin))
    /\ Forall framed out.
Proof.
  unfold run.
  apply (run_loop_stdout stdin
           (add_event (ELog INFO "LightRAG wrapper ready, listening on stdin...") s)).
Qed.

Lemma consistent_log lvl msg s :
  is_setup (@ELog H lvl msg) = false ->
  consistent s -> consistent (add_event (ELog lvl msg) s).
Proof.
  intros Hs. unfold consistent. cbn [self trace add_event].
  rewrite constructions_snoc. cbn. rewrite Nat.add_0_r. trivial.
Qed.

Lemma consistent_run_line line s :
  consistent s -> consistent (run_line env line s).
Proof.
  intros Hc. unfold run_line. destruct (String.eqb (strip line) ""); [exact Hc |].
  destruct (json_loads env (strip line)) as [request | msg | e].
  2: { apply (consistent_log ERROR _ s eq_refl Hc). }
  2: { apply (consistent_log ERROR _ s eq_refl Hc). }
  destruct (safe_handle_request W H env request s) as (_ & Hcons & _).
  specialize (Hcons Hc).
  destruct (handle_request env request s) as [[response | e] s']; cbn [snd] in Hcons.
  - exact Hcons.
  - apply (consistent_log ERROR _ s' eq_refl Hcons).
Qed.

Lemma consistent_run_loop stdin :
  forall s, consistent s -> consistent (run_loop env stdin s).
Proof.
  induction stdin as [| line rest IH]; intros s Hc; cbn [run_loop].
  { unfold shut_down. apply consistent_log; [reflexivity | exact Hc]. }
  destruct (String.eqb line "").
  { unfold shut_down. apply consistent_log; [reflexivity | exact Hc]. }
  apply IH. apply consistent_run_line. exact Hc.
Qed.

Lemma consistent_run stdin s :
  consistent s -> consistent (run env stdin s).
Proof.
  intros Hc. unfold run. apply consistent_run_loop.
  apply consistent_log; [reflexivity | exact Hc].
Qed.

(** X18.  A whole run of the loop on a wrapper that has not been
    initialised constructs at most one engine handle, however many
    requests it serves and however many of them fail; if the wrapper is
    initialised at the end, it holds a handle. *)
Theorem run_constructs_one_engine stdin s :
  fresh s ->
  (constructions (trace (run env stdin s)) <= 1)%nat
  /\ (_initialized (self (run env stdin s)) = true ->
      rag (self (run env stdin s)) <> None).
Proof.
  intros Hfresh.
  pose proof (consistent_run stdin s (fresh_consistent W H s Hfresh)) as Hc.
  split; [apply consistent_bound; exact Hc |].
  intros Hflag. unfold consistent in Hc. rewrite Hflag in Hc. apply Hc.
Qed.

Lemma length_chars text : List.length (chars text) = String.length text.
Proof. induction text as [| c text IH]; cbn; [reflexivity | now rewrite IH]. Qed.

(** X19.  When [file_paths] is a string instead of a list, [index_files]
    takes each of its characters for a path: once [initialize] has
    returned, every character is tested for existence in order, each is
    counted or reported, and total is the length of the string. *)
Theorem index_files_string text s :
  match initialize env s with
  | (Raises e, s1) => index_files env (VStr text) s = (Raises e, s1)
  | (Returns _, s1) =>
      exists outcomes s',
        index_files env (VStr text) s
        = (Returns (index_result (successes outcomes) (messages outcomes)
                      (String.length text)), s')
        /\ Forall2 (file_outcome env) (chars text) outcomes
        /\ checked (trace s') = (checked (trace s1) ++ chars text)%list
  end.
Proof.
  unfold index_files, bind, of_outcome, logger, ret.
  destruct (initialize env s) as [[[] | e] s1]; [| reflexivity].
  cbn [len iter].
  match goal with
  | |- context [for_each _ _ _ ?s2] =>
      destruct (for_each_index_file W H env (chars text) (0, []) s2)
        as (outcomes & s' & Hloop & Hall & Hc)
  end.
  rewrite Hloop, fold_tally. cbn [fst snd app].
  exists outcomes. eexists. split; [reflexivity |]. split; [exact Hall |].
  cbn [trace add_event]. rewrite checked_app, Hc.
  cbn [trace add_event]. rewrite checked_app.
  cbn [checked flat_map app]. rewrite !app_nil_r. reflexivity.
Qed.

(** X20.  The entry point: without OPENAI_API_KEY [main] raises KeyError
    before anything is created; it raises what creating the working
    directory raises; otherwise it serves the input to its end with a
    wrapper built from the environment (model "gpt-4" and embedding model
    "text-embedding-ada-002" unless set), writes one frame for each line
    that [json.loads] refuses with a JSONDecodeError or decodes to an
    object, and constructs at most one engine. *)
Theorem main_outcome environ stdin w :
  match environ_get "OPENAI_API_KEY" environ with
  | None => main env environ stdin w = Raises (KeyError "OPENAI_API_KEY")
  | Some key =>
      match mkdir env
              (path_str env (getenv "LIGHTRAG_WORKING_DIR" "./dev-data" environ))
              w with
      | (Raises e, _) => main env environ stdin w = Raises e
      | (Returns _, _) =>
          exists s,
            main env environ stdin w = Returns s
            /\ List.length (stdout s)
               = List.length (filter (answered env) (frames stdin))
            /\ (constructions (trace s) <= 1)%nat
            /\ working_dir (self s)
               = path_str env (getenv "LIGHTRAG_WORKING_DIR" "./dev-data" environ)
            /\ openai_api_key (self s) = key
            /\ openai_model (self s) = getenv "OPENAI_MODEL" "gpt-4" environ
            /\ openai_embedding_model (self s)
               = getenv "OPENAI_EMBEDDING_MODEL" "text-embedding-ada-002" environ
            /\ milvus_address (self s) = environ_get "MILVUS_ADDRESS" environ
      end
  end.
Proof.
  unfold main. destruct (environ_get "OPENAI_API_KEY" environ) as [key |];
    [| reflexivity].
  unfold __init__.
  destruct (mkdir env _ w) as [[[] | e] w']; [| reflexivity].
  eexists. split; [reflexivity |].
  match goal with
  | |- context [run env stdin ?s0] => set (s := s0)
  end.
  destruct (run_loop_stdout stdin
              (add_event (ELog INFO "LightRAG wrapper ready, listening on stdin...") s))
    as (out & Hout & Hlen & _).
  assert (Hfresh : consistent s) by (unfold consistent; reflexivity).
  pose proof (consistent_run stdin s Hfresh) as Hc.
  pose proof (same_configuration_run_loop stdin
                (add_event (ELog INFO "LightRAG wrapper ready, listening on stdin...") s))
    as Hconf.
  unfold same_configuration, configuration in Hconf.
  cbn [self add_event] in Hconf.
  injection Hconf as Hwd Hkey _ Hmodel Hembedding Hmilvus _ _ _.
  fold (run env stdin s) in Hout, Hwd, Hkey, Hmodel, Hembedding, Hmilvus.
  split; [rewrite Hout; exact Hlen |].
  split; [apply consistent_bound; exact Hc |].
  repeat split; assumption.
Qed.


End Further.

(* ================================================================== *)
(** ** The further properties on the sample environment *)
(* ================================================================== *)

(** A ping with unexpected params on a wrapper whose engine cannot be
    constructed. *)
Lemma ping_leaves_state_witness :
  get_default "method" VNone Scenario.ping_with_params = VStr "ping"
  /\ handle_request Sample.env (VDict Scenario.ping_with_params) Scenario.broken
     = (Returns (success_response (VStr "2.0") (VInt 5) (VStr "pong")),
        Scenario.broken).
Proof.
  split; [reflexivity |].
  exact (ping_leaves_state Sample.World nat Sample.env
           Scenario.ping_with_params Scenario.broken eq_refl).
Defined.

(** Two pings, one with keys the dispatcher does not read. *)
Lemma request_read_through_four_keys_witness :
  dict_get "jsonrpc" Cases.plain_ping = dict_get "jsonrpc" Cases.decorated_ping
  /\ dict_get "params" Cases.plain_ping = dict_get "params" Cases.decorated_ping
  /\ handle_request Sample.env (VDict Cases.plain_ping) Scenario.working
     = handle_request Sample.env (VDict Cases.decorated_ping) Scenario.working.
Proof.
  split; [reflexivity |]. split; [reflexivity |].
  exact (proj1 (request_read_through_four_keys Sample.World nat Sample.env
                  Cases.plain_ping Cases.decorated_ping Scenario.working
                  eq_refl eq_refl eq_refl eq_refl)).
Defined.

(** [insert_text] with "params": null. *)
Lemma non_mapping_params_rejected_witness :
  table_get "insert_text" method_table = Some sig_insert_text
  /\ takes_params "insert_text" = true
  /\ is_mapping VNone = false
  /\ exists msg,
       handle_request Sample.env (VDict Cases.null_params_request) Scenario.working
       = (Returns (error_response (VStr "2.0") (VInt 6) (TypeError msg)),
          add_event (ELog ERROR ("Error handling request: " ++ msg))
            Scenario.working).
Proof.
  split; [reflexivity |]. split; [reflexivity |]. split; [reflexivity |].
  exact (non_mapping_params_rejected Sample.World nat Sample.env
           "insert_text" sig_insert_text Cases.null_params_request VNone
           Scenario.working eq_refl eq_refl eq_refl eq_refl eq_refl).
Defined.

(** [insert_text] of the number 5. *)
Lemma insert_text_unsized_witness :
  returned (len (VInt 5)) = false
  /\ fst (insert_text Sample.env (VInt 5) VNone Scenario.working)
     = Raises (TypeError "object of type 'int' has no len()").
Proof.
  split; [reflexivity |].
  pose proof (insert_text_unsized Sample.World nat Sample.env (VInt 5) VNone
                Scenario.working eq_refl) as Hrun.
  destruct (initialize Sample.env Scenario.working) as [[[] | e] s1] eqn:Hinit.
  - rewrite Hrun. reflexivity.
  - discriminate Hinit.
Defined.

Lemma ready_initialised : ready 1%nat Cases.initialised.
Proof. split; reflexivity. Qed.

(** A search on the initialised sample wrapper. *)
Lemma search_code_outcome_witness :
  ready 1%nat Cases.initialised
  /\ exists s',
       snd (search_code Sample.env (VStr "parser") (VStr "hybrid") (VInt 10)
              (VBool false) (VStr "Multiple Paragraphs") (VInt 4000)
              (VInt 4000) (VInt 4000) VNone VNone Cases.initialised) = s'
       /\ self s' = self Cases.initialised.
Proof.
  split; [exact ready_initialised |].
  destruct (search_code_outcome Sample.World nat Sample.env 1%nat
              (VStr "parser") (VStr "hybrid") (VInt 10) (VBool false)
              (VStr "Multiple Paragraphs") (VInt 4000) (VInt 4000) (VInt 4000)
              VNone VNone Cases.initialised ready_initialised)
    as (s' & Hs' & Hself & _).
  exists s'. split; assumption.
Defined.

(** The relationships of "Foo" with an empty relation type. *)
Lemma get_relationships_result_witness :
  exists result s',
    get_relationships Sample.env (VStr "Foo") (VStr "") (VInt 2) Scenario.working
    = (Returns result, s')
    /\ field "relation_type" result = Some (VStr "all")
    /\ field "depth" result = Some (VInt 2).
Proof.
  destruct (get_relationships Sample.env (VStr "Foo") (VStr "") (VInt 2)
              Scenario.working) as [[result | e] s'] eqn:Hrun.
  - exists result, s'. split; [reflexivity |].
    destruct (get_relationships_result Sample.World nat Sample.env
                (VStr "Foo") (VStr "") (VInt 2) Scenario.working result s' Hrun)
      as (_ & Hdepth & Htype & _).
    split; [exact Htype | exact Hdepth].
  - discriminate Hrun.
Defined.

(** The status of a wrapper whose graph module cannot be imported: the
    configured endpoint is reported all the same. *)
Lemma get_indexing_status_result_witness :
  exists result s',
    get_indexing_status Sample.env Cases.without_modules = (Returns result, s')
    /\ field "initialized" result = Some (VBool true)
    /\ field "storage_backends" result
       = Some (VDict [ ("milvus", VStr "NanoVectorDB");
                       ("neo4j", VStr "neo4j://localhost:7687") ]).
Proof.
  destruct (get_indexing_status Sample.env Cases.without_modules)
    as [[result | e] s'] eqn:Hrun.
  - exists result, s'. split; [reflexivity |].
    destruct (get_indexing_status_result Sample.World nat Sample.env
                Cases.without_modules result s' Hrun)
      as (Hflag & _ & Hbackends & _).
    split; [exact Hflag | exact Hbackends].
  - discriminate Hrun.
Defined.

(** The graph module is missing from the sample world. *)
Lemma initialize_falls_back_witness :
  _initialized (self Cases.without_modules) = false
  /\ exn_is_import_error
       (Exn "ModuleNotFoundError" "No module named 'lightrag.kg.neo4j_impl'" true)
     = true
  /\ fst (initialize Sample.env Cases.without_modules) = Returns tt
  /\ rag (self (snd (initialize Sample.env Cases.without_modules))) = Some 1%nat.
Proof.
  split; [reflexivity |]. split; [reflexivity |].
  destruct (initialize_falls_back Sample.World nat Sample.env
              Cases.without_modules
              (Exn "ModuleNotFoundError"
                 "No module named 'lightrag.kg.neo4j_impl'" true)
              (world Cases.without_modules) 1%nat (world Cases.without_modules)
              eq_refl eq_refl eq_refl eq_refl eq_refl eq_refl)
    as (Hok & Hrag & _).
  split; [exact Hok | exact Hrag].
Defined.

(** A graph endpoint without a password. *)
Lemma initialize_default_backends_witness :
  _initialized (self Cases.plain) = false
  /\ truthy_opt (neo4j_uri (self Cases.plain))
     && truthy_opt (neo4j_password (self Cases.plain)) = false
  /\ truthy_opt (milvus_address (self Cases.plain)) = false
  /\ exists ok,
       trace (snd (initialize Sample.env Cases.plain))
       = ([ ELog INFO setup_message;
            ECall (CLightRAG (lightrag_args (self Cases.plain) [])) ok ]
          ++ (if ok then [ELog INFO "LightRAG initialized successfully"] else []))%list.
Proof.
  split; [reflexivity |]. split; [reflexivity |]. split; [reflexivity |].
  destruct (initialize_default_backends Sample.World nat Sample.env Cases.plain
              eq_refl eq_refl eq_refl) as (ok & _ & Htrace).
  exists ok. exact Htrace.
Defined.

(** A line of three spaces. *)
Lemma blank_line_skipped_witness :
  String.eqb ("   " ++ nl) "" = false
  /\ is_blank ("   " ++ nl) = true
  /\ run_line Sample.env ("   " ++ nl) Scenario.working = Scenario.working.
Proof.
  split; [reflexivity |]. split; [reflexivity |].
  exact (proj1 (blank_line_skipped Sample.World nat Sample.env ("   " ++ nl)
                  [] Scenario.working eq_refl eq_refl)).
Defined.

(** A session of four lines on a fresh wrapper. *)
Lemma run_constructs_one_engine_witness :
  fresh Scenario.working
  /\ (constructions
        (trace (run Sample.env
                  [ Scenario.line_ping; Scenario.line_number;
                    Scenario.line_truncated ]
                  Scenario.working)) <= 1)%nat.
Proof.
  assert (Hfresh : fresh Scenario.working) by (repeat split; reflexivity).
  split; [exact Hfresh |].
  exact (proj1 (run_constructs_one_engine Sample.World nat Sample.env
                  [ Scenario.line_ping; Scenario.line_number;
                    Scenario.line_truncated ]
                  Scenario.working Hfresh)).
Defined.

(** The entity "Foo" on the initialised sample wrapper. *)
Lemma get_entity_outcome_witness :
  ready 1%nat Cases.initialised
  /\ self (snd (get_entity Sample.env (VStr "Foo") Cases.initialised))
     = self Cases.initialised.
Proof.
  split; [exact ready_initialised |].
  exact (proj1 (get_entity_outcome Sample.World nat Sample.env 1%nat
                  (VStr "Foo") Cases.initialised ready_initialised)).
Defined.

